(** * LumaCharts Pro: the price-history pipeline of [app.py]

    A shallow embedding of the data helpers of [src/app.py] (the window
    planner, the resilient fetcher, the chart adapter and the [update_chart]
    callback) together with the properties the specification states about
    them.

    Conventions of the embedding.
    - A [datetime.date] is its proleptic Gregorian ordinal ([date.toordinal()]),
      an integer between [DATE_MIN] (0001-01-01) and [DATE_MAX] (9999-12-31);
      adding a [timedelta] outside that range raises [OverflowError], as in
      Python.
    - A pandas timestamp is the number of nanoseconds of its wall-clock
      reading since 1970-01-01T00:00, together with the time zone of the
      index that holds it.  The bounds of pandas's 64-bit storage are not
      modelled.
    - A close price is an opaque value; [None] stands for NaN (a missing
      price).  Only missingness is ever inspected by the code.
    - Python strings are byte strings here; [lower], [upper] and [strip] act
      on the ASCII range.
    - The provider (yfinance) is an oracle with its own state; every call is
      recorded in a trace, and [sys.stderr] is a list of lines.
    - An exception carries whether its class derives from [Exception]:
      every [except] clause of the code is [except Exception], which lets
      KeyboardInterrupt, SystemExit and the like through.
    - Selecting the Close column of a table yields one column, as pandas
      does when no column label occurs twice ([is_unique]); a table with a
      repeated Close label is outside the embedding, and what is proved
      about the column that is read assumes [is_unique]. *)

From Stdlib Require Import ZArith List String Ascii Bool Lia Sorted DecimalString.
Import ListNotations.

Local Open Scope string_scope.
Local Open Scope Z_scope.
Local Open Scope list_scope.

(* ------------------------------------------------------------------ *)
(** ** Exceptions *)

(** A raised Python exception: the name of its class, its text
    ([type(e).__name__] and [str(e)]), and whether its class derives from
    [Exception], which is what [except Exception] tests.  KeyboardInterrupt,
    SystemExit and the other classes that derive from [BaseException]
    directly do not. *)
Record exn : Type := mkExn {
  exn_kind : string;
  exn_text : string;
  exn_is_Exception : bool
}.

(** An exception of a class derived from [Exception]. *)
Definition Exn (kind text : string) : exn := mkExn kind text true.

(** An exception of a class outside [Exception]. *)
Definition BaseExn (kind text : string) : exn := mkExn kind text false.

Inductive result (A : Type) : Type :=
| Ok (a : A)
| Raise (e : exn).
Arguments Ok {A} a.
Arguments Raise {A} e.

Definition OverflowError : exn := Exn "OverflowError" "date value out of range".
Definition IndexError : exn :=
  Exn "IndexError" "single positional indexer is out-of-bounds".
Definition AttributeError_upper : exn :=
  Exn "AttributeError" "'NoneType' object has no attribute 'upper'".

Definition rbind {A B} (r : result A) (k : A -> result B) : result B :=
  match r with
  | Ok a => k a
  | Raise e => Raise e
  end.

(* ------------------------------------------------------------------ *)
(** ** Strings *)

Definition str_eqb (a b : string) : bool := String.eqb a b.

Definition ascii_lower (c : ascii) : ascii :=
  let n := nat_of_ascii c in
  if (Nat.leb 65 n && Nat.leb n 90)%bool then ascii_of_nat (n + 32) else c.

Definition ascii_upper (c : ascii) : ascii :=
  let n := nat_of_ascii c in
  if (Nat.leb 97 n && Nat.leb n 122)%bool then ascii_of_nat (n - 32) else c.

(** [str.isspace] on the ASCII range: TAB, LF, VT, FF, CR, the four
    separators FS, GS, RS, US, and the space. *)
Definition ascii_isspace (c : ascii) : bool :=
  let n := nat_of_ascii c in
  ((Nat.leb 9 n && Nat.leb n 13) || (Nat.leb 28 n && Nat.leb n 32))%bool.

Fixpoint str_map (f : ascii -> ascii) (s : string) : string :=
  match s with
  | EmptyString => EmptyString
  | String c r => String (f c) (str_map f r)
  end.

Definition lower (s : string) : string := str_map ascii_lower s.
Definition upper (s : string) : string := str_map ascii_upper s.

Fixpoint lstrip_chars (l : list ascii) : list ascii :=
  match l with
  | c :: r => if ascii_isspace c then lstrip_chars r else l
  | [] => []
  end.

Definition strip (s : string) : string :=
  string_of_list_ascii
    (rev (lstrip_chars (rev (lstrip_chars (list_ascii_of_string s))))).

(** [x or d] for an optional string: [None] and the empty string are falsy. *)
Definition str_or (x : option string) (d : string) : string :=
  match x with
  | Some (String c r) => String c r
  | _ => d
  end.

(** [s or d] for a string. *)
Definition or_default (s d : string) : string :=
  match s with
  | EmptyString => d
  | _ => s
  end.

(** [str(n)] for a non-negative integer. *)
Definition str_of_Z (n : Z) : string :=
  NilZero.string_of_uint (N.to_uint (Z.to_N n)).

Fixpoint zeros (k : nat) : string :=
  match k with
  | O => EmptyString
  | S k' => String "0"%char (zeros k')
  end.

(** ["%0*d"]: decimal, left-padded with zeros to [w] characters. *)
Definition zpad (w : nat) (n : Z) : string :=
  let s := str_of_Z n in
  String.append (zeros (w - String.length s)) s.

(** [sub in s]. *)
Definition contains (s sub : string) : bool :=
  match String.index 0 sub s with
  | Some _ => true
  | None => false
  end.

Infix "+++" := String.append (right associativity, at level 60).

(* ------------------------------------------------------------------ *)
(** ** Calendar dates *)

Definition date : Type := Z.

Definition DATE_MIN : date := 1.
Definition DATE_MAX : date := 3652059.

Definition valid_date (d : date) : Prop := DATE_MIN <= d <= DATE_MAX.

(** [d + timedelta(days=n)]. *)
Definition date_add_days (d : date) (n : Z) : result date :=
  let r := d + n in
  if (DATE_MIN <=? r) && (r <=? DATE_MAX) then Ok r else Raise OverflowError.

(** [d - timedelta(days=n)]. *)
Definition date_sub_days (d : date) (n : Z) : result date :=
  date_add_days d (- n).

(** [date.weekday()]: Monday is 0, Sunday is 6. *)
Definition weekday (d : date) : Z := (d + 6) mod 7.

(** [(a - b).days]. *)
Definition days_between (a b : date) : Z := a - b.

(** The calendar fields of an ordinal, after CPython's [_ord2ymd]. *)
Definition DI400Y : Z := 146097.
Definition DI100Y : Z := 36524.
Definition DI4Y : Z := 1461.

Definition DAYS_IN_MONTH (m : Z) : Z :=
  match m with
  | 1 => 31 | 2 => 28 | 3 => 31 | 4 => 30 | 5 => 31 | 6 => 30
  | 7 => 31 | 8 => 31 | 9 => 30 | 10 => 31 | 11 => 30 | 12 => 31
  | _ => 0
  end.

Definition DAYS_BEFORE_MONTH (m : Z) : Z :=
  match m with
  | 1 => 0 | 2 => 31 | 3 => 59 | 4 => 90 | 5 => 120 | 6 => 151
  | 7 => 181 | 8 => 212 | 9 => 243 | 10 => 273 | 11 => 304 | 12 => 334
  | _ => 0
  end.

Definition b2z (b : bool) : Z := if b then 1 else 0.

Definition ord2ymd (ord : date) : Z * Z * Z :=
  let n := ord - 1 in
  let n400 := n / DI400Y in
  let n := n mod DI400Y in
  let year := n400 * 400 + 1 in
  let n100 := n / DI100Y in
  let n := n mod DI100Y in
  let n4 := n / DI4Y in
  let n := n mod DI4Y in
  let n1 := n / 365 in
  let n := n mod 365 in
  let year := year + n100 * 100 + n4 * 4 + n1 in
  if (n1 =? 4) || (n100 =? 4) then (year - 1, 12, 31)
  else
    let leapyear := (n1 =? 3) && (negb (n4 =? 24) || (n100 =? 3)) in
    let month := Z.shiftr (n + 50) 5 in
    let preceding := DAYS_BEFORE_MONTH month + b2z ((2 <? month) && leapyear) in
    if n <? preceding then
      let month' := month - 1 in
      let preceding' :=
        preceding - (DAYS_IN_MONTH month' + b2z ((month' =? 2) && leapyear)) in
      (year, month', n - preceding' + 1)
    else (year, month, n - preceding + 1).

(** [str(d)], that is [d.isoformat()]: YYYY-MM-DD. *)
Definition date_str (d : date) : string :=
  let '(y, m, dd) := ord2ymd d in
  zpad 4 y +++ "-" +++ zpad 2 m +++ "-" +++ zpad 2 dd.

(* ------------------------------------------------------------------ *)
(** ** Window planner *)

Definition DEFAULT_TICKER : string := "AAPL".

Definition get_last_trading_day (d : date) : result date :=
  if weekday d =? 5 then date_sub_days d 1
  else if weekday d =? 6 then date_sub_days d 2
  else Ok d.

Inductive Interval : Type := I5m | I30m | I60m | I1d.

Definition interval_str (i : Interval) : string :=
  match i with
  | I5m => "5m"
  | I30m => "30m"
  | I60m => "60m"
  | I1d => "1d"
  end.

Definition interval_eqb (a b : Interval) : bool :=
  match a, b with
  | I5m, I5m | I30m, I30m | I60m, I60m | I1d, I1d => true
  | _, _ => false
  end.

Definition pick_interval (days : Z) : Interval :=
  if days <=? 2 then I5m
  else if days <=? 10 then I30m
  else if days <=? 60 then I60m
  else I1d.

Definition RANGE_DAYS : list (string * Z) :=
  [("1d", 1); ("1w", 7); ("1m", 30); ("3m", 90); ("6m", 180);
   ("1y", 365); ("2y", 730)].

(** [dict.get(k, default)]. *)
Fixpoint dict_get {V} (d : list (string * V)) (k : string) (default : V) : V :=
  match d with
  | [] => default
  | (k', v) :: r => if str_eqb k' k then v else dict_get r k default
  end.

Definition compute_window_endpoints (range_key : option string) (end_date : date)
  : result (date * date) :=
  if str_eqb (lower (str_or range_key EmptyString)) "1d" then
    rbind (get_last_trading_day end_date) (fun end_date =>
    rbind (date_sub_days end_date 1) (fun start_date =>
    Ok (start_date, end_date)))
  else
    let days := dict_get RANGE_DAYS (lower (str_or range_key "3m")) 90 in
    rbind (date_sub_days end_date days) (fun start_date =>
    Ok (start_date, end_date)).


(* ------------------------------------------------------------------ *)
(** ** Tables and series *)

Definition MINUTE_NS : Z := 60000000000.
Definition DAY_NS : Z := 86400000000000.

(** Ordinal of 1970-01-01. *)
Definition EPOCH_ORDINAL : Z := 719163.

(** [DatetimeIndex.floor]: round towards minus infinity to a multiple of
    [unit] nanoseconds. *)
Definition floor_to (unit t : Z) : Z := t - t mod unit.

(** [pd.Timestamp(d)] for a date: midnight of that day. *)
Definition Timestamp_of_date (d : date) : Z := (d - EPOCH_ORDINAL) * DAY_NS.

(** The [name] of a series: absent, a string, or the (field, symbol) pair
    of the column it was taken from. *)
Inductive Name : Type :=
| NoName
| NameStr (s : string)
| NameTuple (field symbol : string).

(** A [pd.Series] of closes over a [DatetimeIndex]: one time zone for the
    whole index ([None] when naive) and the rows in index order. *)
Record Series (price : Type) : Type := mkSeries {
  s_name : Name;
  s_tz : option string;
  s_rows : list (Z * option price)
}.
Arguments mkSeries {price} _ _ _.
Arguments s_name {price} _.
Arguments s_tz {price} _.
Arguments s_rows {price} _.

(** Column labels of a provider table: flat names, or a [MultiIndex] of
    (field, symbol) pairs.  When no label occurs twice ([is_unique] below,
    as in the tables yfinance builds) a label selects a single column, and
    the [squeeze] of line 171 has nothing to collapse.  With a repeated
    label pandas selects a table of several columns, which has no
    counterpart here. *)
Inductive Columns : Type :=
| Flat (labels : list string)
| Multi (labels : list (string * string)).

(** A [pd.DataFrame]: each row is its timestamp and one cell per column. *)
Record DataFrame (price : Type) : Type := mkFrame {
  df_columns : Columns;
  df_tz : option string;
  df_rows : list (Z * list (option price))
}.
Arguments mkFrame {price} _ _ _.
Arguments df_columns {price} _.
Arguments df_tz {price} _.
Arguments df_rows {price} _.

Section Frames.
Context {price : Type}.

(** [pd.Series(dtype="float64")]. *)
Definition empty_series : Series price := mkSeries NoName None [].

(** [len(s)]. *)
Definition len (s : Series price) : Z := Z.of_nat (List.length (s_rows s)).

(** [s.empty]. *)
Definition is_empty (s : Series price) : bool :=
  match s_rows s with
  | [] => true
  | _ :: _ => false
  end.

Definition index_of (s : Series price) : list Z := map fst (s_rows s).

Definition is_missing (v : option price) : bool :=
  match v with
  | None => true
  | Some _ => false
  end.

Fixpoint position {A} (eqb : A -> A -> bool) (x : A) (l : list A) : option nat :=
  match l with
  | [] => None
  | y :: r =>
      if eqb y x then Some O
      else match position eqb x r with
           | Some n => Some (S n)
           | None => None
           end
  end.

Definition label2_eqb (a b : string * string) : bool :=
  str_eqb (fst a) (fst b) && str_eqb (snd a) (snd b).

(** Pairwise different elements. *)
Fixpoint distinct {A} (eqb : A -> A -> bool) (l : list A) : bool :=
  match l with
  | [] => true
  | x :: r => negb (existsb (eqb x) r) && distinct eqb r
  end.

(** [df.columns.is_unique]: no column label occurs twice. *)
Definition is_unique (c : Columns) : bool :=
  match c with
  | Flat labels => distinct str_eqb labels
  | Multi labels => distinct label2_eqb labels
  end.

(** The column at position [j], as a series named [nm]. *)
Definition column_at (df : DataFrame price) (j : nat) (nm : Name) : Series price :=
  mkSeries nm (df_tz df)
    (map (fun r => (fst r, nth j (snd r) None)) (df_rows df)).

(** [df.get("Close", pd.Series(dtype="float64"))] on flat columns. *)
Definition get_close (df : DataFrame price) (labels : list string) : Series price :=
  match position str_eqb "Close" labels with
  | Some j => column_at df j (NameStr "Close")
  | None => empty_series
  end.

(** [s.dropna()]. *)
Definition dropna (s : Series price) : Series price :=
  mkSeries (s_name s) (s_tz s)
    (filter (fun r => negb (is_missing (snd r))) (s_rows s)).

(** [s.index = f(s.index)], pointwise. *)
Definition map_index (f : Z -> Z) (s : Series price) : Series price :=
  mkSeries (s_name s) (s_tz s) (map (fun r => (f (fst r), snd r)) (s_rows s)).

(** [s[mask]] for a mask computed from the index. *)
Definition select (keep : Z -> bool) (s : Series price) : Series price :=
  mkSeries (s_name s) (s_tz s) (filter (fun r => keep (fst r)) (s_rows s)).

(** [idx.max()] of a non-empty index. *)
Definition index_max (l : list Z) : Z :=
  match l with
  | [] => 0
  | x :: r => fold_left Z.max r x
  end.

(** Granularity of the index after normalization: [normalize()] for daily
    bars, [floor("min")] otherwise (lines 176-179). *)
Definition granularity (interval : Interval) : Z :=
  if interval_eqb interval I1d then DAY_NS else MINUTE_NS.

(** The closure [to_close_series] of [fetch_history]; [interval] is the
    variable it captures.  The selection of lines 165-171 is embedded for
    tables whose column labels are unique ([is_unique]), where [df.get] and
    [df[...]] return the one column that carries the label; on a repeated
    Close label the code goes on with a table of several columns, which
    this definition does not follow. *)
Definition to_close_series (interval : Interval) (df : option (DataFrame price))
  : Series price :=
  match df with
  | None => empty_series
  | Some df =>
      if Nat.eqb (List.length (df_rows df)) 0 then empty_series
      else
        let s :=
          match df_columns df with
          | Multi labels =>
              match filter (fun c => str_eqb (fst c) "Close") labels with
              | c0 :: _ =>
                  match position label2_eqb c0 labels with
                  | Some j => column_at df j (NameTuple (fst c0) (snd c0))
                  | None => empty_series
                  end
              | [] => empty_series
              end
          | Flat labels => get_close df labels
          end in
        let s := dropna s in
        if is_empty s then s
        else
          let s := mkSeries (s_name s) None (s_rows s) in
          let s := map_index (floor_to (granularity interval)) s in
          mkSeries (NameStr "Close") (s_tz s) (s_rows s)
  end.

(** The two lines of lines 193-194 and 238-239:
    [last = s.index.normalize().max(); s[s.index.normalize() == last]]. *)
Definition last_session_only (s : Series price) : Series price :=
  let last_session := index_max (map (floor_to DAY_NS) (index_of s)) in
  select (fun t => floor_to DAY_NS t =? last_session) s.

End Frames.

(* ------------------------------------------------------------------ *)
(** ** The provider, the diagnostic channel and the effect monad *)

(** The three ways [fetch_history] queries yfinance. *)
Inductive Request : Type :=
| DownloadPeriod (ticker period : string) (interval : Interval)
    (* yf.download(ticker, period=.., interval=..) *)
| DownloadRange (ticker : string) (start end_ : date) (interval : Interval)
    (* yf.download(ticker, start=.., end=.., interval=..) *)
| HistoryRange (ticker : string) (start end_ : date) (interval : Interval).
    (* yf.Ticker(ticker).history(start=.., end=.., interval=..) *)

(** What a provider call produced: a table, [None], or an exception. *)
Definition Outcome (price : Type) : Type := result (option (DataFrame price)).

(** The world a request runs in: the provider's state, the calls made so
    far with their outcomes (oldest first), and the lines on stderr. *)
Record World (price P : Type) : Type := mkWorld {
  w_prov : P;
  w_trace : list (Request * Outcome price);
  w_stderr : list string
}.
Arguments mkWorld {price P} _ _ _.
Arguments w_prov {price P} _.
Arguments w_trace {price P} _.
Arguments w_stderr {price P} _.

Definition M (price P A : Type) : Type :=
  World price P -> result A * World price P.

Section Monad.
Context {price P : Type}.

Definition ret {A} (a : A) : M price P A := fun w => (Ok a, w).

Definition bind {A B} (m : M price P A) (k : A -> M price P B) : M price P B :=
  fun w =>
    match m w with
    | (Ok a, w') => k a w'
    | (Raise e, w') => (Raise e, w')
    end.

(** A pure computation that may raise. *)
Definition lift {A} (r : result A) : M price P A := fun w => (r, w).

(** [try: m  except Exception as e: h e].  Effects of [m] up to the raise
    stay in place; an exception whose class is outside [Exception] is not
    caught. *)
Definition try_except {A} (m : M price P A) (h : exn -> M price P A) : M price P A :=
  fun w =>
    match m w with
    | (Ok a, w') => (Ok a, w')
    | (Raise e, w') => if exn_is_Exception e then h e w' else (Raise e, w')
    end.

(** [print(line, file=sys.stderr)]. *)
Definition eprint (line : string) : M price P unit :=
  fun w => (Ok tt, mkWorld (w_prov w) (w_trace w) (w_stderr w ++ [line])).

End Monad.

Notation "x <- m ;; k" := (bind m (fun x => k))
  (at level 61, m at next level, k at level 200, right associativity).

(** A block that may [return] from the enclosing function: [Some s] is the
    returned value, [None] falls through to the rest [k]. *)
Definition or_continue {price P A} (m : M price P (option A)) (k : M price P A)
  : M price P A :=
  r <- m ;;
  match r with
  | Some a => ret a
  | None => k
  end.

Notation "'block' m 'then_' k" := (or_continue m k)
  (at level 61, m at next level, k at level 200, right associativity).

(* ------------------------------------------------------------------ *)
(** ** The fetcher, the chart adapter and the callback *)

(** What [make_figure] and the placeholders put into a [go.Figure] that
    depends on the data: the trace, its name and hover template, the tick
    format of the x axis and the visibility of the range slider. *)
Record Chart (price : Type) : Type := mkChart {
  ch_x : list Z;
  ch_y : list (option price);
  ch_name : string;
  ch_hovertemplate : string;
  ch_tickformat : string;
  ch_rangeslider : bool
}.
Arguments mkChart {price} _ _ _ _ _ _.
Arguments ch_x {price} _.
Arguments ch_y {price} _.
Arguments ch_name {price} _.
Arguments ch_hovertemplate {price} _.
Arguments ch_tickformat {price} _.
Arguments ch_rangeslider {price} _.

Record Figure (price : Type) : Type := mkFigure {
  fig_title : string;
  fig_chart : option (Chart price)
}.
Arguments mkFigure {price} _ _.
Arguments fig_title {price} _.
Arguments fig_chart {price} _.

Section Pipeline.
Context {price P : Type}.

(** The provider: from its state and a request, an outcome and its next
    state. *)
Variable respond : P -> Request -> Outcome price * P.

(** One provider call, recorded in the trace. *)
Definition call (req : Request) : M price P (option (DataFrame price)) :=
  fun w =>
    let '(r, p') := respond (w_prov w) req in
    (r, mkWorld p' (w_trace w ++ [(req, r)]) (w_stderr w)).

Definition fetch_history (ticker : string) (start end_ : date)
  : M price P (Series price) :=
  let days := (let d := days_between end_ start in if d =? 0 then 1 else d) in
  let interval := pick_interval days in
  (* Fast path: intraday 1D *)
  block
    (if negb (interval_eqb interval I1d) && (days =? 1) then
       try_except
         (d0 <- call (DownloadPeriod ticker "5d" interval) ;;
          let s0 := to_close_series interval d0 in
          if negb (is_empty s0) then
            let s0 := last_session_only s0 in
            if negb (is_empty s0) then ret (Some s0) else ret None
          else ret None)
         (fun e =>
            _ <- eprint ("[fetch_history] 1D intraday session pull error: "
                         +++ exn_text e) ;;
            ret None)
     else ret None)
  then_
  end_inclusive <- lift (date_add_days end_ 1) ;;
  (* 1) start/end *)
  block
    (try_except
       (d <- call (DownloadRange ticker start end_inclusive interval) ;;
        let s := to_close_series interval d in
        if negb (is_empty s) then ret (Some s) else ret None)
       (fun e =>
          _ <- eprint ("[fetch_history] download error: " +++ exn_text e) ;;
          ret None))
  then_
  (* 2) .history(start/end) *)
  block
    (try_except
       (h <- call (HistoryRange ticker start end_inclusive interval) ;;
        let s := to_close_series interval h in
        if negb (is_empty s) then ret (Some s) else ret None)
       (fun e =>
          _ <- eprint ("[fetch_history] history error: " +++ exn_text e) ;;
          ret None))
  then_
  (* 3) intraday fallback: period, then slice *)
  block
    (try_except
       (if negb (interval_eqb interval I1d) then
          let period := if days <=? 7 then "7d" else "30d" in
          d2 <- call (DownloadPeriod ticker period interval) ;;
          let s2 := to_close_series interval d2 in
          if negb (is_empty s2) then
            if days =? 1 then
              let s2 := last_session_only s2 in
              if negb (is_empty s2) then ret (Some s2) else ret None
            else
              let s2 :=
                select (fun t => (Timestamp_of_date start <=? t)
                                 && (t <? Timestamp_of_date end_inclusive)) s2 in
              if negb (is_empty s2) then ret (Some s2) else ret None
          else ret None
        else ret None)
       (fun e =>
          _ <- eprint ("[fetch_history] intraday period fallback error: "
                       +++ exn_text e) ;;
          ret None))
  then_
  _ <- eprint ("[fetch_history] no data for " +++ ticker +++ " "
               +++ date_str start +++ "→" +++ date_str end_
               +++ " (interval " +++ interval_str interval +++ ")") ;;
  ret empty_series.

(** The data-dependent part of [make_figure].  Time differences are whole
    nanoseconds here; [total_seconds() // 86400] computes the same number
    of days on timestamps floored to the minute, where the float it goes
    through is exact. *)
Definition make_figure (s : Series price) (ticker : string)
  : result (Figure price) :=
  let dates := index_of s in
  let is_daily_like := forallb (fun t => floor_to DAY_NS t =? t) dates in
  let dates := if is_daily_like then map (floor_to DAY_NS) dates else dates in
  match dates with
  | [] => Raise IndexError            (* df["Date"].iloc[-1] *)
  | first :: _ =>
      let span_days := Z.max 1 ((last dates first - first) / DAY_NS) in
      let has_intraday_time :=
        existsb (fun t => negb (floor_to DAY_NS t =? t)) dates in
      let '(x_tickformat, hover_fmt) :=
        if has_intraday_time then ("%b %d, %H:%M", "%b %d, %Y %H:%M")
        else (if span_days <=? 120 then "%b %d" else "%b %Y", "%b %d, %Y") in
      Ok (mkFigure (ticker +++ " Price Performance")
            (Some (mkChart dates (map snd (s_rows s))
                     (ticker +++ " Close")
                     ("%{x|" +++ hover_fmt
                      +++ "}<br>Close: $%{y:.2f}<extra></extra>")
                     x_tickformat
                     (60 <? span_days))))
  end.

(** The body of the [try] of [update_chart]; [today] is what
    [dt.date.today()] returns. *)
Definition update_chart_try (today : date) (ticker range_key : option string)
  : M price P (Figure price * string) :=
  let t := or_default (upper (strip (str_or ticker EmptyString))) DEFAULT_TICKER in
  end_ <- lift (get_last_trading_day today) ;;
  w <- lift (compute_window_endpoints range_key end_) ;;
  let '(start, end_) := w in
  s <- fetch_history t start end_ ;;
  if len s =? 0 then
    ret (mkFigure ("No data for '" +++ t +++ "' in " +++ date_str start
                   +++ "→" +++ date_str end_ +++ ". Try another range.") None,
         "No rows returned for " +++ t +++ ".")
  else
    fig <- lift (make_figure s t) ;;
    rk <- lift (match range_key with
                | Some k => Ok (upper k)
                | None => Raise AttributeError_upper
                end) ;;
    ret (fig, "Showing " +++ t +++ " – " +++ rk +++ " window ("
              +++ str_of_Z (len s) +++ " rows)").

Definition update_chart (today : date) (ticker range_key : option string)
  : M price P (Figure price * string) :=
  try_except (update_chart_try today ticker range_key)
    (fun e =>
       ret (mkFigure "Error" None,
            "Error: " +++ exn_kind e +++ ": " +++ exn_text e)).

End Pipeline.

Arguments call {price P} respond req _.
Arguments fetch_history {price P} respond ticker start end_ _.
Arguments update_chart_try {price P} respond today ticker range_key _.
Arguments update_chart {price P} respond today ticker range_key _.

(** [s.to_frame(name="Close")] (line 255): the one-column table of a
    series. *)
Definition to_frame {price} (s : Series price) : DataFrame price :=
  mkFrame (Flat ["Close"]) (s_tz s) (map (fun r => (fst r, [snd r])) (s_rows s)).

(* ------------------------------------------------------------------ *)
(** ** Sample data

    Prices in cents; the provider's state counts the calls it served. *)

Definition at_time (d : date) (h m s : Z) : Z :=
  Timestamp_of_date d + ((h * 60 + m) * 60 + s) * 1000000000.

(** Monday 2024-01-08 and the days after it. *)
Definition MON : date := 738893.
Definition TUE : date := 738894.
Definition WED : date := 738895.
Definition SAT : date := 738898.

Definition start_world {price} : World price nat := mkWorld O [] [].

(** Intraday bars of two sessions, one of them without a close. *)
Definition two_sessions : DataFrame Z :=
  mkFrame (Flat ["Open"; "Close"]) (Some "America/New_York")
    [ (at_time MON 15 50 0, [Some 18510; Some 18525]);
      (at_time MON 15 55 0, [Some 18525; Some 18540]);
      (at_time TUE 9 30 0, [Some 18600; Some 18612]);
      (at_time TUE 9 35 0, [Some 18612; None]);
      (at_time TUE 9 40 0, [Some 18620; Some 18633]) ].

(** Ten bars of one session under (field, symbol) column labels. *)
Definition ten_rows : DataFrame Z :=
  mkFrame (Multi [("Adj Close", "AAPL"); ("Close", "AAPL"); ("Volume", "AAPL")])
    (Some "America/New_York")
    (map (fun k => (at_time TUE 9 (30 + 5 * k) 0,
                    [Some (18500 + k); Some (18600 + k); Some 1000]))
         [0; 1; 2; 3; 4; 5; 6; 7; 8; 9]).

(** Two bars 30 seconds apart, as a provider reports a bar in progress. *)
Definition same_minute : DataFrame Z :=
  mkFrame (Flat ["Close"]) None
    [ (at_time TUE 10 0 0, [Some 18600]);
      (at_time TUE 10 0 30, [Some 18605]) ].

Definition no_rows : DataFrame Z := mkFrame (Flat ["Close"]) None [].

(** Never has data. *)
Definition quiet_provider (n : nat) (req : Request) : Outcome Z * nat :=
  (Ok None, S n).

(** Every call is interrupted from the keyboard. *)
Definition interrupted_provider (n : nat) (req : Request) : Outcome Z * nat :=
  (Raise (BaseExn "KeyboardInterrupt" EmptyString), S n).

(** Every call fails. *)
Definition failing_provider (n : nat) (req : Request) : Outcome Z * nat :=
  (Raise (Exn "ConnectionError" "timed out"), S n).

(** Serves the two sessions to trailing-period requests only. *)
Definition sessions_provider (n : nat) (req : Request) : Outcome Z * nat :=
  match req with
  | DownloadPeriod _ _ _ => (Ok (Some two_sessions), S n)
  | _ => (Ok None, S n)
  end.

(** Empty for trailing periods, ten intraday rows for an intraday
    start/end download, and an error on the per-symbol handle. *)
Definition fallback_provider (n : nat) (req : Request) : Outcome Z * nat :=
  match req with
  | DownloadPeriod _ _ _ => (Ok (Some no_rows), S n)
  | DownloadRange _ _ _ I1d => (Ok None, S n)
  | DownloadRange _ _ _ _ => (Ok (Some ten_rows), S n)
  | HistoryRange _ _ _ _ => (Raise (Exn "RuntimeError" "not reached"), S n)
  end.

(** Serves the bar in progress to every request. *)
Definition live_provider (n : nat) (req : Request) : Outcome Z * nat :=
  (Ok (Some same_minute), S n).

(* ------------------------------------------------------------------ *)
(** ** The vocabulary of the specification *)

Section Vocabulary.
Context {price : Type}.


(** Normalized form for an interval: labelled Close, naive, no missing
    close, every timestamp on the grid of the interval. *)
Definition normalized (interval : Interval) (s : Series price) : Prop :=
  s_name s = NameStr "Close"
  /\ s_tz s = None
  /\ Forall (fun r => snd r <> None
                      /\ floor_to (granularity interval) (fst r) = fst r)
            (s_rows s).


Definition request_interval (req : Request) : Interval :=
  match req with
  | DownloadPeriod _ _ i => i
  | DownloadRange _ _ _ i => i
  | HistoryRange _ _ _ i => i
  end.


(** Whole days between the first and the last timestamp, at least 1. *)
Definition span_days (s : Series price) : Z :=
  Z.max 1 ((last (index_of s) 0 - hd 0 (index_of s)) / DAY_NS).

(** The strategy a diagnostic line is attributed to. *)
Definition error_tag (req : Request) : string :=
  match req with
  | DownloadPeriod _ period _ =>
      if str_eqb period "5d" then "1D intraday session pull error"
      else "intraday period fallback error"
  | DownloadRange _ _ _ _ => "download error"
  | HistoryRange _ _ _ _ => "history error"
  end.

(** The diagnostic lines owed to a stretch of the trace: one per call that
    raised an exception the fetcher catches, in order. *)
Definition logs_of (tr : list (Request * Outcome price)) : list string :=
  flat_map (fun c =>
              match snd c with
              | Raise e =>
                  if exn_is_Exception e
                  then ["[fetch_history] " +++ error_tag (fst c) +++ ": "
                        +++ exn_text e]
                  else []
              | Ok _ => []
              end) tr.

(** A call that returned, or raised an exception of a class the fetcher
    catches. *)
Definition caught (c : Request * Outcome price) : bool :=
  match snd c with
  | Raise e => exn_is_Exception e
  | Ok _ => true
  end.

(** A provider that raises nothing but exceptions of classes derived from
    [Exception]. *)
Definition raises_Exceptions_only {P} (respond : P -> Request -> Outcome price * P)
  : Prop :=
  forall p req e p', respond p req = (Raise e, p') -> exn_is_Exception e = true.

Definition no_data_line (ticker : string) (start end_ : date) (interval : Interval)
  : string :=
  "[fetch_history] no data for " +++ ticker +++ " " +++ date_str start
  +++ "→" +++ date_str end_ +++ " (interval " +++ interval_str interval +++ ")".

End Vocabulary.

(** The window planner rolls the reference date back: the window it
    returns ends on [get_last_trading_day] of the reference date. *)
Definition planner_rolls_back (range_key : option string) (d : date) : Prop :=
  exists s e, compute_window_endpoints range_key d = Ok (s, e)
              /\ get_last_trading_day d = Ok e.

(** A status message names the window when both of its dates occur in it. *)
Definition names_window (msg : string) (start end_ : date) : bool :=
  contains msg (date_str start) && contains msg (date_str end_).

(** [t] is [s] without its leading and trailing whitespace. *)
Definition trimmed (s t : string) : Prop :=
  exists pre post,
    list_ascii_of_string s = pre ++ list_ascii_of_string t ++ post
    /\ forallb ascii_isspace pre = true
    /\ forallb ascii_isspace post = true
    /\ match list_ascii_of_string t with
       | [] => True
       | c :: _ => ascii_isspace c = false
       end
    /\ match rev (list_ascii_of_string t) with
       | [] => True
       | c :: _ => ascii_isspace c = false
       end.

(** *** Retrieval as an ordered list of strategies

    The fetcher as section 4.2 words it: each strategy makes one provider
    request, normalizes the answer and restricts it; the first strategy
    that yields a non-empty series wins. *)
Section Strategies.
Context {price P : Type}.
Variable respond : P -> Request -> Outcome price * P.

Record Strategy : Type := mkStrategy {
  st_applies : bool;
  st_request : Request;
  st_restrict : Series price -> Series price;
  st_label : string
}.

Definition run_strategy (interval : Interval) (st : Strategy)
  : M price P (option (Series price)) :=
  if st_applies st then
    try_except
      (raw <- call respond (st_request st) ;;
       let s := to_close_series interval raw in
       if negb (is_empty s) then
         let s := st_restrict st s in
         if negb (is_empty s) then ret (Some s) else ret None
       else ret None)
      (fun e =>
         _ <- eprint ("[fetch_history] " +++ st_label st +++ ": " +++ exn_text e) ;;
         ret None)
  else ret None.

Fixpoint first_success (interval : Interval) (sts : list Strategy)
    (otherwise : M price P (Series price)) : M price P (Series price) :=
  match sts with
  | [] => otherwise
  | st :: rest =>
      r <- run_strategy interval st ;;
      match r with
      | Some s => ret s
      | None => first_success interval rest otherwise
      end
  end.

Definition span_of (start end_ : date) : Z :=
  let d := days_between end_ start in if d =? 0 then 1 else d.

(** Strategy 1, the single-session intraday fast path. *)
Definition fast_path (ticker : string) (start end_ : date) : Strategy :=
  let days := span_of start end_ in
  let interval := pick_interval days in
  mkStrategy (negb (interval_eqb interval I1d) && (days =? 1))
    (DownloadPeriod ticker "5d" interval)
    last_session_only
    "1D intraday session pull error".

(** Strategies 2 to 4, which use the end date widened by one day. *)
Definition windowed (ticker : string) (start end_ end_inclusive : date)
  : list Strategy :=
  let days := span_of start end_ in
  let interval := pick_interval days in
  [ mkStrategy true (DownloadRange ticker start end_inclusive interval)
      (fun s => s) "download error";
    mkStrategy true (HistoryRange ticker start end_inclusive interval)
      (fun s => s) "history error";
    mkStrategy (negb (interval_eqb interval I1d))
      (DownloadPeriod ticker (if days <=? 7 then "7d" else "30d") interval)
      (if days =? 1 then last_session_only
       else select (fun t => (Timestamp_of_date start <=? t)
                             && (t <? Timestamp_of_date end_inclusive)))
      "intraday period fallback error" ].

Definition no_data (ticker : string) (start end_ : date)
  : M price P (Series price) :=
  _ <- eprint (no_data_line ticker start end_ (pick_interval (span_of start end_))) ;;
  ret empty_series.

(** The fetcher of section 4.2. *)
Definition fetch_in_order (ticker : string) (start end_ : date)
  : M price P (Series price) :=
  let interval := pick_interval (span_of start end_) in
  first_success interval [fast_path ticker start end_]
    (end_inclusive <- lift (date_add_days end_ 1) ;;
     first_success interval (windowed ticker start end_ end_inclusive)
       (no_data ticker start end_)).

(** A restriction keeps some rows of a series and nothing else of it
    changes. *)
Definition restriction (f : Series price -> Series price) : Prop :=
  forall s, exists keep, f s = select keep s.

(** A strategy whose diagnostic label is the one its request is attributed
    to, which asks the provider for bars of [interval], and which restricts
    what it gets. *)
Definition faithful (interval : Interval) (st : Strategy) : Prop :=
  st_label st = error_tag (st_request st)
  /\ request_interval (st_request st) = interval
  /\ restriction (st_restrict st).

(** [pre] all fall through, taking the world from [w] to [w']. *)
Inductive fall_through (interval : Interval)
  : list Strategy -> World price P -> World price P -> Prop :=
| ft_nil w : fall_through interval [] w w
| ft_cons st rest w w1 w2 :
    run_strategy interval st w = (Ok None, w1) ->
    fall_through interval rest w1 w2 ->
    fall_through interval (st :: rest) w w2.

End Strategies.

Arguments run_strategy {price P} respond interval st _.
Arguments first_success {price P} respond interval sts otherwise _.
Arguments fetch_in_order {price P} respond ticker start end_ _.
Arguments no_data {price P} ticker start end_ _.
Arguments fall_through {price P} respond interval _ _ _.
Arguments restriction {price} f.
Arguments faithful {price} interval st.
Arguments fast_path {price} ticker start end_.
Arguments windowed {price} ticker start end_ end_inclusive.

(* ------------------------------------------------------------------ *)
(** ** The range controls *)

(** Labels and values of the range dropdown (lines 389-397). *)
Definition RANGE_OPTIONS : list (string * string) :=
  [("1 Day", "1d"); ("1 Week", "1w"); ("1 Month", "1m"); ("3 Months", "3m");
   ("6 Months", "6m"); ("1 Year", "1y"); ("2 Years", "2y")].

(** The callback of the quick-range buttons: [trigger] is
    [ctx.triggered_id]; the result [None] is [dash.no_update]. *)
Definition set_quick_range (trigger : option string) : option string :=
  match trigger with
  | Some id =>
      dict_get [("btn-1d", Some "1d"); ("btn-1w", Some "1w");
                ("btn-1m", Some "1m"); ("btn-1y", Some "1y")] id None
  | None => None
  end.

(* ------------------------------------------------------------------ *)
(** ** Further vocabulary *)

(** Minutes between two bars of an interval. *)
Definition bar_minutes (i : Interval) : Z :=
  match i with
  | I5m => 5
  | I30m => 30
  | I60m => 60
  | I1d => 1440
  end.

Definition request_ticker (req : Request) : string :=
  match req with
  | DownloadPeriod t _ _ => t
  | DownloadRange t _ _ _ => t
  | HistoryRange t _ _ _ => t
  end.

Definition is_period_request (req : Request) : bool :=
  match req with
  | DownloadPeriod _ _ _ => true
  | _ => false
  end.

Fixpoint position_where {A} (f : A -> bool) (l : list A) : option nat :=
  match l with
  | [] => None
  | y :: r =>
      if f y then Some O
      else match position_where f r with
           | Some n => Some (S n)
           | None => None
           end
  end.

(** The column that holds the closes: the first one labelled Close, or
    under (field, symbol) labels the first one whose field is Close,
    whatever its symbol. *)
Definition close_position (c : Columns) : option nat :=
  match c with
  | Flat labels => position_where (fun l => str_eqb l "Close") labels
  | Multi labels => position_where (fun l => str_eqb (fst l) "Close") labels
  end.

(** The label of column [k] as a (field, symbol) pair; a flat label has
    no symbol. *)
Definition label_at (c : Columns) (k : nat) : option (string * string) :=
  match c with
  | Flat labels => option_map (fun l => (l, EmptyString)) (nth_error labels k)
  | Multi labels => nth_error labels k
  end.

(* ================================================================== *)
(** * Properties *)

(** Case analysis on the tests of the code. *)
Ltac by_cases :=
  repeat match goal with
         | |- context [ (?a <=? ?b) ] => destruct (Z.leb_spec a b)
         | |- context [ (?a <? ?b) ] => destruct (Z.ltb_spec a b)
         | |- context [ (?a =? ?b) ] => destruct (Z.eqb_spec a b)
         end.

(* ------------------------------------------------------------------ *)
(** ** Window planner *)

Module Planner.

Lemma weekday_range (d : date) : 0 <= weekday d <= 6.
Proof. unfold weekday. pose proof (Z.mod_pos_bound (d + 6) 7). lia. Qed.

Lemma weekday_pred (d : date) :
  weekday d = 5 -> weekday (d - 1) = 4.
Proof. unfold weekday. intros H. Z.div_mod_to_equations. lia. Qed.

Lemma weekday_pred2 (d : date) :
  weekday d = 6 -> weekday (d - 2) = 4.
Proof. unfold weekday. intros H. Z.div_mod_to_equations. lia. Qed.

(** A valid Saturday or Sunday is not among the first five days of the
    calendar, so rolling back never leaves it. *)
Lemma weekend_not_first (d : date) :
  valid_date d -> 5 <= weekday d -> 6 <= d.
Proof.
  unfold valid_date, DATE_MIN, weekday. intros Hd H.
  Z.div_mod_to_equations. lia.
Qed.

Lemma date_add_days_ok (d n : Z) :
  DATE_MIN <= d + n <= DATE_MAX -> date_add_days d n = Ok (d + n).
Proof.
  intros H. unfold date_add_days. cbv zeta.
  destruct (Z.leb_spec DATE_MIN (d + n)); [|lia].
  destruct (Z.leb_spec (d + n) DATE_MAX); [|lia]. reflexivity.
Qed.

Lemma date_add_days_inv (d n r : Z) :
  date_add_days d n = Ok r -> r = d + n /\ valid_date r.
Proof.
  unfold date_add_days, valid_date. cbv zeta.
  destruct (Z.leb_spec DATE_MIN (d + n)); [|discriminate].
  destruct (Z.leb_spec (d + n) DATE_MAX); [|discriminate].
  cbn. intros [= <-]. lia.
Qed.

(** Date arithmetic and the planner raise nothing but [OverflowError]. *)
Lemma date_add_days_raises (d n : Z) (e : exn) :
  date_add_days d n = Raise e -> e = OverflowError.
Proof.
  unfold date_add_days. cbv zeta.
  destruct ((DATE_MIN <=? d + n) && (d + n <=? DATE_MAX)); intros [=]. auto.
Qed.

Lemma get_last_trading_day_raises (d : date) (e : exn) :
  get_last_trading_day d = Raise e -> e = OverflowError.
Proof.
  unfold get_last_trading_day, date_sub_days.
  destruct (weekday d =? 5); [apply date_add_days_raises|].
  destruct (weekday d =? 6); [apply date_add_days_raises|]. discriminate.
Qed.

Lemma compute_window_endpoints_raises (k : option string) (d : date) (e : exn) :
  compute_window_endpoints k d = Raise e -> e = OverflowError.
Proof.
  unfold compute_window_endpoints, date_sub_days.
  destruct (str_eqb (lower (str_or k EmptyString)) "1d").
  - destruct (get_last_trading_day d) as [d'|e'] eqn:Hd; cbn [rbind].
    + destruct (date_add_days d' (- (1))) as [s|e'] eqn:Hs; cbn [rbind];
        intros [=]; subst. exact (date_add_days_raises _ _ _ Hs).
    + intros [=]; subst. exact (get_last_trading_day_raises _ _ Hd).
  - match goal with
    | |- rbind (date_add_days ?a ?b) _ = _ -> _ =>
        destruct (date_add_days a b) as [s|e'] eqn:Hs; cbn [rbind];
        intros [=]; subst; exact (date_add_days_raises _ _ _ Hs)
    end.
Qed.

(** What [get_last_trading_day] computes on a valid date. *)
Lemma get_last_trading_day_value (d : date) :
  valid_date d ->
  get_last_trading_day d =
    Ok (if weekday d =? 5 then d - 1 else if weekday d =? 6 then d - 2 else d).
Proof.
  intros Hd. unfold get_last_trading_day, date_sub_days.
  pose proof (weekend_not_first d Hd) as Hw. unfold valid_date, DATE_MIN in *.
  destruct (Z.eqb_spec (weekday d) 5).
  - rewrite date_add_days_ok; [f_equal; lia | unfold DATE_MIN; lia].
  - destruct (Z.eqb_spec (weekday d) 6); [|reflexivity].
    rewrite date_add_days_ok; [f_equal; lia | unfold DATE_MIN; lia].
Qed.

(** A result of [get_last_trading_day] is a weekday, whatever the input. *)
Lemma get_last_trading_day_is_weekday (d e : date) :
  get_last_trading_day d = Ok e -> 0 <= weekday e <= 4.
Proof.
  unfold get_last_trading_day, date_sub_days. intros H.
  destruct (Z.eqb_spec (weekday d) 5) as [H5|H5].
  - apply date_add_days_inv in H as [-> _].
    replace (d + - (1)) with (d - 1) by lia. rewrite weekday_pred; lia.
  - destruct (Z.eqb_spec (weekday d) 6) as [H6|H6].
    + apply date_add_days_inv in H as [-> _].
      replace (d + - (2)) with (d - 2) by lia. rewrite weekday_pred2; lia.
    + injection H as <-. pose proof (weekday_range d). lia.
Qed.

Lemma get_last_trading_day_fix (e : date) :
  0 <= weekday e <= 4 -> get_last_trading_day e = Ok e.
Proof.
  intros H. unfold get_last_trading_day.
  destruct (Z.eqb_spec (weekday e) 5); [lia|].
  destruct (Z.eqb_spec (weekday e) 6); [lia|]. reflexivity.
Qed.

(** C5: for every integer days >= 1, [pick_interval] returns the 5-minute
    interval when days <= 2, the 30-minute interval when 2 < days <= 10, the
    60-minute interval when 10 < days <= 60 and the daily interval otherwise;
    the boundary inputs 2, 3, 10, 11, 60, 61 map to 5m, 30m, 30m, 60m, 60m,
    1d. *)
Theorem pick_interval_table (days : Z) (Hdays : 1 <= days) :
  (days <= 2 -> pick_interval days = I5m)
  /\ (2 < days <= 10 -> pick_interval days = I30m)
  /\ (10 < days <= 60 -> pick_interval days = I60m)
  /\ (60 < days -> pick_interval days = I1d)
  /\ map pick_interval [2; 3; 10; 11; 60; 61]
     = [I5m; I30m; I30m; I60m; I60m; I1d].
Proof.
  unfold pick_interval.
  repeat split; try reflexivity; intros; by_cases; (reflexivity || lia).
Qed.

Lemma pick_interval_table_witness :
  1 <= 7 /\ pick_interval 7 = I30m.
Proof.
  split; [lia|].
  destruct (pick_interval_table 7 ltac:(lia)) as (_ & H & _).
  apply H. lia.
Defined.

(** C10: for every date d, [get_last_trading_day d] returns a date that is
    a weekday (Monday to Friday), lies at most 2 days before d and never
    after it, and applying the function again changes nothing. *)
Theorem get_last_trading_day_weekday_idempotent (d : date) (Hd : valid_date d) :
  exists r,
    get_last_trading_day d = Ok r
    /\ valid_date r
    /\ 0 <= weekday r <= 4
    /\ d - 2 <= r <= d
    /\ get_last_trading_day r = Ok r.
Proof.
  pose proof (get_last_trading_day_value d Hd) as Hv.
  pose proof (weekend_not_first d Hd) as Hw.
  eexists. split; [exact Hv|].
  pose proof (get_last_trading_day_is_weekday _ _ Hv) as Hwd.
  unfold valid_date, DATE_MIN in *.
  repeat split; try (by_cases; lia).
  apply get_last_trading_day_fix. exact Hwd.
Qed.

Lemma get_last_trading_day_weekday_idempotent_witness :
  valid_date SAT
  /\ exists r,
       get_last_trading_day SAT = Ok r
       /\ valid_date r
       /\ 0 <= weekday r <= 4
       /\ SAT - 2 <= r <= SAT
       /\ get_last_trading_day r = Ok r.
Proof.
  assert (H : valid_date SAT) by (unfold valid_date, DATE_MIN, DATE_MAX, SAT; lia).
  split; [exact H|].
  exact (get_last_trading_day_weekday_idempotent SAT H).
Defined.

Lemma not_1d_falls_to_table (k : option string) (d : date) :
  str_eqb (lower (str_or k EmptyString)) "1d" = false ->
  compute_window_endpoints k d =
    rbind (date_sub_days d (dict_get RANGE_DAYS (lower (str_or k "3m")) 90))
          (fun s => Ok (s, d)).
Proof. intros H. unfold compute_window_endpoints. rewrite H. reflexivity. Qed.

(** C4, as stated, fails: with the keyword 1w and a Saturday as reference
    date, [compute_window_endpoints] returns a window that still ends on
    that Saturday. *)
Lemma compute_window_endpoints_no_rollback_1w :
  weekday SAT = 5
  /\ compute_window_endpoints (Some "1w") SAT = Ok (SAT - 7, SAT)
  /\ ~ planner_rolls_back (Some "1w") SAT.
Proof.
  split; [reflexivity|]. split; [reflexivity|].
  intros (s & e & Hw & He).
  vm_compute in Hw. vm_compute in He. congruence.
Qed.

(** C4 (amended): for the keyword 1d, in any letter case, and every
    reference date after 0001-01-01, [compute_window_endpoints] maps the
    reference date to the most recent trading day before computing the
    window (Saturday -1 day, Sunday -2 days, weekdays unchanged) and returns
    end = that day, start = end - 1 day; so a Saturday gives end = the
    previous Friday and start = end - 1.  For every other keyword
    [compute_window_endpoints] keeps the reference date as the end of the
    window; the roll-back is then the caller's: when the reference date is a
    result of [get_last_trading_day], as [update_chart] passes it, the window
    ends on that trading day for every keyword. *)
Theorem compute_window_endpoints_rollback
    (range_key : option string) (d : date) (Hd : valid_date d) :
  (str_eqb (lower (str_or range_key EmptyString)) "1d" = true ->
   DATE_MIN < d ->
   exists e,
     get_last_trading_day d = Ok e
     /\ compute_window_endpoints range_key d = Ok (e - 1, e)
     /\ 0 <= weekday e <= 4
     /\ (weekday d = 5 -> e = d - 1)
     /\ (weekday d = 6 -> e = d - 2)
     /\ (weekday d <= 4 -> e = d))
  /\ (weekday d = 5 ->
      compute_window_endpoints (Some "1d") d = Ok (d - 2, d - 1)
      /\ weekday (d - 1) = 4)
  /\ (str_eqb (lower (str_or range_key EmptyString)) "1d" = false ->
      forall s e, compute_window_endpoints range_key d = Ok (s, e) -> e = d)
  /\ (forall today s e,
        get_last_trading_day today = Ok d ->
        compute_window_endpoints range_key d = Ok (s, e) ->
        e = d /\ 0 <= weekday e <= 4).
Proof.
  pose proof (get_last_trading_day_value d Hd) as Hv.
  pose proof (weekend_not_first d Hd) as Hw.
  pose proof (get_last_trading_day_is_weekday _ _ Hv) as Hwd.
  pose proof (weekday_range d) as Hr.
  unfold valid_date, DATE_MIN in *.
  split; [|split; [|split]].
  - intros Hk Hmin. eexists. split; [exact Hv|].
    split.
    + unfold compute_window_endpoints. rewrite Hk, Hv. cbn [rbind].
      unfold date_sub_days. rewrite date_add_days_ok.
      * cbn [rbind]. do 2 f_equal; lia.
      * unfold DATE_MIN. by_cases; lia.
    + repeat split; try lia; intros; by_cases; lia.
  - intros H5. split; [|apply weekday_pred; exact H5].
    unfold compute_window_endpoints.
    change (str_eqb (lower (str_or (Some "1d") EmptyString)) "1d") with true.
    cbv iota. rewrite Hv. cbn [rbind].
    destruct (Z.eqb_spec (weekday d) 5); [|lia].
    unfold date_sub_days. rewrite date_add_days_ok.
    + cbn [rbind]. do 2 f_equal; lia.
    + unfold DATE_MIN. lia.
  - intros Hk s e. rewrite (not_1d_falls_to_table _ _ Hk).
    destruct (date_sub_days d _); cbn [rbind]; congruence.
  - intros today s e Ht.
    pose proof (get_last_trading_day_is_weekday _ _ Ht) as Hwk.
    unfold compute_window_endpoints.
    destruct (str_eqb (lower (str_or range_key EmptyString)) "1d").
    + rewrite (get_last_trading_day_fix d Hwk). cbn [rbind].
      destruct (date_sub_days d 1); cbn [rbind]; [|discriminate].
      intros [= <- <-]. split; [reflexivity | exact Hwk].
    + destruct (date_sub_days d _); cbn [rbind]; [|discriminate].
      intros [= <- <-]. split; [reflexivity | exact Hwk].
Qed.

Lemma compute_window_endpoints_rollback_witness :
  valid_date SAT
  /\ compute_window_endpoints (Some "1d") SAT = Ok (SAT - 2, SAT - 1)
  /\ weekday (SAT - 1) = 4.
Proof.
  assert (H : valid_date SAT) by (unfold valid_date, DATE_MIN, DATE_MAX, SAT; lia).
  split; [exact H|].
  destruct (compute_window_endpoints_rollback (Some "1D") SAT H) as (_ & H5 & _).
  apply H5. reflexivity.
Defined.

End Planner.

(* ------------------------------------------------------------------ *)
(** ** Normalization *)

Module Normalization.

Section Lemmas.
Context {price : Type}.
Implicit Types (s : Series price) (df : DataFrame price)
  (raw : option (DataFrame price)).



Lemma is_empty_rows s : is_empty s = true <-> s_rows s = [].
Proof. unfold is_empty. destruct (s_rows s); split; congruence. Qed.

Lemma is_empty_false_rows s : is_empty s = false <-> s_rows s <> [].
Proof. unfold is_empty. destruct (s_rows s); split; congruence. Qed.

Lemma is_empty_len s : is_empty s = true <-> len s = 0.
Proof.
  unfold is_empty, len. destruct (s_rows s); cbn [List.length]; split;
    intros; (reflexivity || discriminate || lia).
Qed.

(** Selecting rows of nothing leaves nothing. *)
Lemma select_empty keep s : is_empty s = true -> is_empty (select keep s) = true.
Proof.
  rewrite !is_empty_rows. unfold select. cbn. intros ->. reflexivity.
Qed.

Lemma select_rows_incl keep s r : In r (s_rows (select keep s)) -> In r (s_rows s).
Proof. unfold select. cbn. intros H. apply filter_In in H. tauto. Qed.

Lemma last_session_only_is_select s :
  last_session_only s =
  select (fun t => floor_to DAY_NS t
                   =? index_max (map (floor_to DAY_NS) (index_of s))) s.
Proof. reflexivity. Qed.








End Lemmas.

(** C8, as stated, fails on the empty series: an empty series labelled
    Close is in normalized form, and normalizing its table gives the fresh
    unlabelled empty series of line 164. *)
Lemma to_close_series_not_identity_on_empty :
  let s : Series Z := mkSeries (NameStr "Close") None [] in
  normalized I5m s
  /\ to_close_series I5m (Some (to_frame s)) = empty_series
  /\ to_close_series I5m (Some (to_frame s)) <> s.
Proof.
  cbv zeta. split; [|split].
  - unfold normalized. cbn. auto.
  - reflexivity.
  - cbn. discriminate.
Qed.

(** C8 (amended): normalization is idempotent on non-empty series: for
    every non-empty series already in normalized form (no missing close,
    naive timestamps already on the grid of the interval, labelled Close),
    normalizing its one-column table returns a series identical to it. *)
Theorem to_close_series_idempotent {price} (interval : Interval) (s : Series price)
    (Hnorm : normalized interval s) (Hne : is_empty s = false) :
  to_close_series interval (Some (to_frame s)) = s.
Proof.
  destruct s as [nm tz rows]. unfold normalized in Hnorm. cbn in Hnorm.
  destruct Hnorm as (-> & -> & HF).
  apply is_empty_false_rows in Hne. cbn in Hne.
  unfold to_close_series, to_frame. cbn [df_rows df_columns s_rows s_tz].
  rewrite length_map.
  assert (Hlen : Nat.eqb (List.length rows) 0 = false)
    by (destruct rows; [congruence | reflexivity]).
  rewrite Hlen.
  change (get_close ?df ["Close"]) with (column_at df 0 (NameStr "Close")).
  unfold column_at, dropna, map_index. cbn [df_rows df_tz s_rows s_name s_tz].
  rewrite map_map. cbn [fst snd nth].
  assert (Hid : map (fun x : Z * option price => (fst x, snd x)) rows = rows).
  { clear. induction rows as [|[t v] l IH]; cbn; congruence. }
  rewrite Hid.
  assert (Hfilter : filter (fun r : Z * option price => negb (is_missing (snd r))) rows
                    = rows).
  { clear - HF. induction HF as [|[t v] l [Hv _] _ IH]; cbn; [reflexivity|].
    destruct v; [cbn; congruence | cbn in Hv; congruence]. }
  rewrite Hfilter.
  assert (Hempty : is_empty (mkSeries (NameStr "Close") (@None string) rows) = false).
  { apply is_empty_false_rows. exact Hne. }
  rewrite Hempty. f_equal.
  clear - HF. induction HF as [|[t v] l [_ Hfl] _ IH]; cbn; [reflexivity|].
  cbn in Hfl. rewrite Hfl, IH. reflexivity.
Qed.

Lemma to_close_series_idempotent_witness :
  let s : Series Z :=
    mkSeries (NameStr "Close") None
      [(at_time TUE 9 30 0, Some 18600); (at_time TUE 9 35 0, Some 18612)] in
  normalized I5m s /\ is_empty s = false
  /\ to_close_series I5m (Some (to_frame s)) = s.
Proof.
  cbv zeta.
  assert (Hn : normalized I5m
                 (mkSeries (NameStr "Close") None
                    [(at_time TUE 9 30 0, Some 18600);
                     (at_time TUE 9 35 0, Some 18612)])).
  { unfold normalized. cbn [s_name s_tz s_rows].
    repeat split; repeat constructor; cbn; discriminate. }
  split; [exact Hn|]. split; [reflexivity|].
  apply (to_close_series_idempotent I5m _ Hn). reflexivity.
Defined.

End Normalization.

(* ------------------------------------------------------------------ *)
(** ** Chart adapter *)

Module Adapter.

Lemma daily_like_fixed (dates : list Z) :
  forallb (fun t => floor_to DAY_NS t =? t) dates = true ->
  map (floor_to DAY_NS) dates = dates.
Proof.
  induction dates as [|t l IH]; cbn; [reflexivity|].
  intros H. apply andb_prop in H as [Ht Hl].
  apply Z.eqb_eq in Ht. rewrite Ht, IH; auto.
Qed.

Lemma last_default_irrelevant {A} (l : list A) (x d d' : A) :
  last (x :: l) d = last (x :: l) d'.
Proof.
  revert x. induction l as [|y l IH]; intros x; [reflexivity|].
  change (last (y :: l) d = last (y :: l) d'). apply IH.
Qed.

(** C9: for every non-empty series, [make_figure] makes the range slider
    visible exactly when the whole-day span between the first and the last
    timestamp (floored, at least 1) exceeds 60 days: a series spanning
    exactly 60 days gets no slider and one spanning 61 days gets one. *)
Theorem make_figure_rangeslider {price} (s : Series price) (ticker : string)
    (Hne : is_empty s = false) :
  exists fig ch,
    make_figure s ticker = Ok fig
    /\ fig_chart fig = Some ch
    /\ ch_rangeslider ch = (60 <? span_days s)
    /\ (ch_rangeslider ch = true
        <-> 61 * DAY_NS <= last (index_of s) 0 - hd 0 (index_of s))
    /\ (last (index_of s) 0 - hd 0 (index_of s) = 60 * DAY_NS ->
        ch_rangeslider ch = false)
    /\ (last (index_of s) 0 - hd 0 (index_of s) = 61 * DAY_NS ->
        ch_rangeslider ch = true).
Proof.
  unfold make_figure, span_days.
  assert (Hdates :
            (if forallb (fun t => floor_to DAY_NS t =? t) (index_of s)
             then map (floor_to DAY_NS) (index_of s) else index_of s)
            = index_of s).
  { destruct (forallb _ (index_of s)) eqn:Hd; [|reflexivity].
    apply daily_like_fixed. exact Hd. }
  cbv zeta. rewrite Hdates.
  destruct (index_of s) as [|first rest] eqn:Hidx.
  - exfalso. unfold index_of in Hidx. apply map_eq_nil in Hidx.
    apply Normalization.is_empty_rows in Hidx. congruence.
  - rewrite (last_default_irrelevant rest first first 0). cbn [hd].
    set (span := last (first :: rest) 0 - first).
    destruct (existsb _ (first :: rest));
      [|destruct (Z.max 1 (span / DAY_NS) <=? 120)];
      (eexists; eexists; split; [reflexivity|]; split; [reflexivity|];
       cbn [ch_rangeslider]; split; [reflexivity|];
       rewrite Z.ltb_lt; unfold DAY_NS;
       repeat split; intros; Z.div_mod_to_equations; lia).
Qed.

Lemma make_figure_rangeslider_witness :
  let s : Series Z :=
    mkSeries (NameStr "Close") None
      [(Timestamp_of_date MON, Some 18600);
       (Timestamp_of_date (MON + 61), Some 19100)] in
  is_empty s = false
  /\ exists fig ch,
       make_figure s "AAPL" = Ok fig
       /\ fig_chart fig = Some ch
       /\ ch_rangeslider ch = (60 <? span_days s)
       /\ (ch_rangeslider ch = true
           <-> 61 * DAY_NS <= last (index_of s) 0 - hd 0 (index_of s))
       /\ (last (index_of s) 0 - hd 0 (index_of s) = 60 * DAY_NS ->
           ch_rangeslider ch = false)
       /\ (last (index_of s) 0 - hd 0 (index_of s) = 61 * DAY_NS ->
           ch_rangeslider ch = true).
Proof.
  cbv zeta. split; [reflexivity|].
  apply (make_figure_rangeslider
           (mkSeries (NameStr "Close") None
              [(Timestamp_of_date MON, Some 18600);
               (Timestamp_of_date (MON + 61), Some 19100)]) "AAPL").
  reflexivity.
Defined.

End Adapter.

(* ------------------------------------------------------------------ *)
(** ** Resilient fetcher *)

Module Fetcher.

Section Lemmas.
Context {price P : Type}.
Variable respond : P -> Request -> Outcome price * P.
Implicit Types (w : World price P) (s : Series price) (st : @Strategy price).

(** The ways a strategy can go: it does not apply, the provider raises an
    exception that is caught and logged, the provider answers, or the
    provider raises an exception that is not caught. *)
Lemma run_strategy_cases interval st w :
  (st_applies st = false /\ run_strategy respond interval st w = (Ok None, w))
  \/ (exists e p',
        st_applies st = true
        /\ respond (w_prov w) (st_request st) = (Raise e, p')
        /\ exn_is_Exception e = true
        /\ run_strategy respond interval st w =
           (Ok None,
            mkWorld p' (w_trace w ++ [(st_request st, Raise e)])
              (w_stderr w ++ ["[fetch_history] " +++ st_label st +++ ": "
                              +++ exn_text e])))
  \/ (exists raw p',
        st_applies st = true
        /\ respond (w_prov w) (st_request st) = (Ok raw, p')
        /\ run_strategy respond interval st w =
           (Ok (let s := to_close_series interval raw in
                if negb (is_empty s) && negb (is_empty (st_restrict st s))
                then Some (st_restrict st s) else None),
            mkWorld p' (w_trace w ++ [(st_request st, Ok raw)]) (w_stderr w)))
  \/ (exists e p',
        st_applies st = true
        /\ respond (w_prov w) (st_request st) = (Raise e, p')
        /\ exn_is_Exception e = false
        /\ run_strategy respond interval st w =
           (Raise e,
            mkWorld p' (w_trace w ++ [(st_request st, Raise e)]) (w_stderr w))).
Proof.
  unfold run_strategy.
  destruct (st_applies st); [|left; auto]. right.
  unfold try_except, bind, call, eprint, ret.
  destruct (respond (w_prov w) (st_request st)) as [[raw|e] p'] eqn:Hr.
  - right. left. exists raw, p'. repeat split. cbv zeta.
    destruct (is_empty (to_close_series interval raw)); cbn; [reflexivity|].
    destruct (is_empty (st_restrict st (to_close_series interval raw)));
      reflexivity.
  - destruct (exn_is_Exception e) eqn:He.
    + left. exists e, p'. repeat split; exact He.
    + right. right. exists e, p'. repeat split; exact He.
Qed.

(** The code of [fetch_history] is the ordered list of strategies. *)
Lemma fetch_history_unfold ticker start end_ w :
  fetch_history respond ticker start end_ w
  = fetch_in_order respond ticker start end_ w.
Proof.
  unfold fetch_history, fetch_in_order, first_success, fast_path, windowed,
    run_strategy, no_data, no_data_line, span_of, or_continue.
  cbv zeta. cbn [st_applies st_request st_restrict st_label String.append].
  set (days := if days_between end_ start =? 0 then 1 else days_between end_ start).
  set (interval := pick_interval days).
  unfold bind, try_except, call, lift, ret, eprint.
  destruct (interval_eqb interval I1d) eqn:Hdaily;
    destruct (days =? 1) eqn:Hone;
    repeat (cbv beta iota zeta; cbn [w_prov w_trace w_stderr negb andb];
            match goal with
            | |- ?x = ?x => fail 1
            | |- context [respond ?p ?r] =>
                destruct (respond p r) as [[?|?] ?] eqn:?
            | |- context [is_empty ?s] => destruct (is_empty s) eqn:?
            | |- context [exn_is_Exception ?e] =>
                destruct (exn_is_Exception e) eqn:?
            | |- context [date_add_days ?a ?b] =>
                destruct (date_add_days a b) eqn:?
            end);
    reflexivity.
Qed.


Lemma select_all s : select (fun _ => true) s = s.
Proof.
  destruct s as [nm tz rows]. unfold select. cbn. f_equal.
  induction rows as [|r rows IH]; cbn; congruence.
Qed.

Lemma fast_path_faithful ticker start end_ :
  faithful (pick_interval (span_of start end_)) (@fast_path price ticker start end_).
Proof.
  unfold faithful, fast_path. cbn. repeat split.
  intros s. eexists. apply Normalization.last_session_only_is_select.
Qed.

Lemma windowed_faithful ticker start end_ e1 :
  Forall (faithful (pick_interval (span_of start end_)))
    (@windowed price ticker start end_ e1).
Proof.
  unfold windowed. cbv zeta. repeat constructor; cbn.
  - intros s. exists (fun _ => true). symmetry. apply select_all.
  - intros s. exists (fun _ => true). symmetry. apply select_all.
  - destruct (span_of start end_ <=? 7); reflexivity.
  - destruct (span_of start end_ =? 1); intros s; eexists.
    + apply Normalization.last_session_only_is_select.
    + reflexivity.
Qed.

Lemma logs_of_app (tr1 tr2 : list (Request * Outcome price)) :
  logs_of (tr1 ++ tr2) = logs_of tr1 ++ logs_of tr2.
Proof. unfold logs_of. apply flat_map_app. Qed.

Lemma first_success_step interval st rest otherwise w r w2 :
  run_strategy respond interval st w = (Ok r, w2) ->
  first_success respond interval (st :: rest) otherwise w =
  match r with
  | Some s => (Ok s, w2)
  | None => first_success respond interval rest otherwise w2
  end.
Proof.
  intros H. cbn [first_success]. unfold bind. rewrite H.
  destruct r; reflexivity.
Qed.

Lemma first_success_raise interval st rest otherwise w e w2 :
  run_strategy respond interval st w = (Raise e, w2) ->
  first_success respond interval (st :: rest) otherwise w = (Raise e, w2).
Proof. intros H. cbn [first_success]. unfold bind. rewrite H. reflexivity. Qed.

(** Running a list of strategies: the calls made are recorded, every call
    that raised an exception that is caught left its line on stderr, and
    either one strategy produced the non-empty result, or the rest of the
    code takes over, or the provider raised an exception that is not
    caught, which ends the run at that call. *)
Lemma first_success_run interval sts otherwise w :
  Forall (faithful interval) sts ->
  exists tr w1,
    w_trace w1 = w_trace w ++ tr
    /\ w_stderr w1 = w_stderr w ++ logs_of tr
    /\ ((exists s st raw p p',
           first_success respond interval sts otherwise w = (Ok s, w1)
           /\ is_empty s = false
           /\ In st sts
           /\ respond p (st_request st) = (Ok raw, p')
           /\ is_empty (to_close_series interval raw) = false
           /\ s = st_restrict st (to_close_series interval raw)
           /\ forallb caught tr = true)
        \/ (first_success respond interval sts otherwise w = otherwise w1
            /\ forallb caught tr = true)
        \/ (exists e req p p' tr0,
              first_success respond interval sts otherwise w = (Raise e, w1)
              /\ exn_is_Exception e = false
              /\ respond p req = (Raise e, p')
              /\ tr = tr0 ++ [(req, Raise e)]
              /\ forallb caught tr0 = true)).
Proof.
  intros Hall. revert w.
  induction Hall as [|st rest (Hlabel & _ & _) _ IH]; intros w.
  - exists [], w. rewrite !app_nil_r.
    split; [reflexivity|]. split; [reflexivity|]. right. left.
    split; reflexivity.
  - assert (Hlater : forall w2 before,
               w_trace w2 = w_trace w ++ before ->
               w_stderr w2 = w_stderr w ++ logs_of before ->
               forallb caught before = true ->
               first_success respond interval (st :: rest) otherwise w
               = first_success respond interval rest otherwise w2 ->
               exists tr w1,
                 w_trace w1 = w_trace w ++ tr
                 /\ w_stderr w1 = w_stderr w ++ logs_of tr
                 /\ ((exists s st' raw p p',
                        first_success respond interval (st :: rest) otherwise w
                        = (Ok s, w1)
                        /\ is_empty s = false
                        /\ In st' (st :: rest)
                        /\ respond p (st_request st') = (Ok raw, p')
                        /\ is_empty (to_close_series interval raw) = false
                        /\ s = st_restrict st' (to_close_series interval raw)
                        /\ forallb caught tr = true)
                     \/ (first_success respond interval (st :: rest) otherwise w
                         = otherwise w1
                         /\ forallb caught tr = true)
                     \/ (exists e req p p' tr0,
                           first_success respond interval (st :: rest) otherwise w
                           = (Raise e, w1)
                           /\ exn_is_Exception e = false
                           /\ respond p req = (Raise e, p')
                           /\ tr = tr0 ++ [(req, Raise e)]
                           /\ forallb caught tr0 = true))).
    { intros w2 before Ht2 Hs2 Hc2 Heq. rewrite Heq.
      destruct (IH w2) as (tr & w1 & Ht & Hs & Hcase).
      exists (before ++ tr), w1.
      split; [rewrite Ht, Ht2, <- app_assoc; reflexivity|].
      split; [rewrite Hs, Hs2, <- app_assoc, <- logs_of_app; reflexivity|].
      destruct Hcase
        as [(s & st' & raw & p & p' & H1 & H2 & H3 & H4 & H5 & H6 & H7)
           | [(Hc & H7) | (e & req & p & p' & tr0 & H1 & H2 & H3 & H4 & H7)]].
      - left. exists s, st', raw, p, p'.
        repeat split; auto; [right; exact H3|].
        rewrite forallb_app, Hc2, H7. reflexivity.
      - right. left. split; [exact Hc|].
        rewrite forallb_app, Hc2, H7. reflexivity.
      - right. right. exists e, req, p, p', (before ++ tr0).
        repeat split; auto; [rewrite H4, app_assoc; reflexivity|].
        rewrite forallb_app, Hc2, H7. reflexivity. }
    destruct (run_strategy_cases interval st w)
      as [(_ & Hrun)
         | [(e & p' & _ & Hresp & Hexc & Hrun)
           | [(raw & p' & _ & Hresp & Hrun)
             | (e & p' & _ & Hresp & Hexc & Hrun)]]].
    + apply Hlater with (w2 := w) (before := []);
        [rewrite app_nil_r; reflexivity | rewrite app_nil_r; reflexivity
        | reflexivity
        | apply (first_success_step _ _ rest otherwise _ _ _ Hrun)].
    + eapply Hlater with (before := [(st_request st, Raise e)]);
        [| | |apply (first_success_step _ _ rest otherwise _ _ _ Hrun)].
      * reflexivity.
      * cbn. rewrite Hexc, Hlabel. reflexivity.
      * cbn. rewrite Hexc. reflexivity.
    + cbv zeta in Hrun.
      destruct (is_empty (to_close_series interval raw)) eqn:He1;
        [|destruct (is_empty (st_restrict st (to_close_series interval raw))) eqn:He2];
        cbn [negb andb] in Hrun.
      * eapply Hlater with (before := [(st_request st, Ok raw)]);
          [| | |apply (first_success_step _ _ rest otherwise _ _ _ Hrun)];
          cbn; rewrite ?app_nil_r; reflexivity.
      * eapply Hlater with (before := [(st_request st, Ok raw)]);
          [| | |apply (first_success_step _ _ rest otherwise _ _ _ Hrun)];
          cbn; rewrite ?app_nil_r; reflexivity.
      * rewrite (first_success_step _ _ rest otherwise _ _ _ Hrun).
        exists [(st_request st, Ok raw)],
          (mkWorld p' (w_trace w ++ [(st_request st, Ok raw)]) (w_stderr w)).
        split; [reflexivity|]. split; [cbn; rewrite app_nil_r; reflexivity|].
        left. exists (st_restrict st (to_close_series interval raw)), st, raw,
                (w_prov w), p'.
        repeat split; auto. left. reflexivity.
    + rewrite (first_success_raise _ _ rest otherwise _ _ _ Hrun).
      exists [(st_request st, Raise e)],
        (mkWorld p' (w_trace w ++ [(st_request st, Raise e)]) (w_stderr w)).
      split; [reflexivity|].
      split; [cbn; rewrite Hexc, app_nil_r; reflexivity|].
      right. right. exists e, (st_request st), (w_prov w), p', [].
      repeat split; auto.
Qed.

Lemma run_strategy_ok interval st w raw p' :
  st_applies st = true ->
  respond (w_prov w) (st_request st) = (Ok raw, p') ->
  run_strategy respond interval st w =
  (Ok (let s := to_close_series interval raw in
       if negb (is_empty s) && negb (is_empty (st_restrict st s))
       then Some (st_restrict st s) else None),
   mkWorld p' (w_trace w ++ [(st_request st, Ok raw)]) (w_stderr w)).
Proof.
  intros Ha Hr.
  destruct (run_strategy_cases interval st w)
    as [(Hn & _)
       | [(e & p0 & _ & Hresp & _)
         | [(raw0 & p0 & _ & Hresp & Hrun) | (e & p0 & _ & Hresp & _)]]];
    try congruence.
  rewrite Hrun. rewrite Hr in Hresp. injection Hresp as <- <-. reflexivity.
Qed.

Lemma first_success_hit interval pre st post otherwise w w1 s w2 :
  fall_through respond interval pre w w1 ->
  run_strategy respond interval st w1 = (Ok (Some s), w2) ->
  first_success respond interval (pre ++ st :: post) otherwise w = (Ok s, w2).
Proof.
  intros Hpre Hst. induction Hpre as [w | st0 rest w wa wb Hrun _ IH].
  - cbn [app]. rewrite (first_success_step _ _ _ _ _ _ _ Hst). reflexivity.
  - cbn [app]. rewrite (first_success_step _ _ _ _ _ _ _ Hrun). exact (IH Hst).
Qed.

Lemma fold_max_spec (r : list Z) (x : Z) :
  (fold_left Z.max r x = x \/ In (fold_left Z.max r x) r)
  /\ x <= fold_left Z.max r x
  /\ forall y, In y r -> y <= fold_left Z.max r x.
Proof.
  revert x. induction r as [|a r IH]; intros x; cbn [fold_left].
  - repeat split; auto; try lia. intros y [].
  - destruct (IH (Z.max x a)) as (Hin & Hle & Hall).
    repeat split.
    + destruct Hin as [Heq | Hin]; [|right; right; exact Hin].
      rewrite Heq.
      destruct (Z.max_spec x a) as [[_ Hm] | [_ Hm]]; rewrite Hm;
        [right; left; reflexivity | left; reflexivity].
    + lia.
    + intros y [<- | Hy]; [lia | auto].
Qed.

Lemma index_max_spec (l : list Z) :
  l <> [] -> In (index_max l) l /\ forall x, In x l -> x <= index_max l.
Proof.
  destruct l as [|x r]; [congruence|]. intros _. unfold index_max.
  destruct (fold_max_spec r x) as (Hin & Hle & Hall). split.
  - destruct Hin as [-> | Hin]; [left; reflexivity | right; exact Hin].
  - intros y [<- | Hy]; auto.
Qed.

Lemma last_session_rows s r :
  In r (s_rows (last_session_only s))
  <-> In r (s_rows s)
      /\ floor_to DAY_NS (fst r) = index_max (map (floor_to DAY_NS) (index_of s)).
Proof.
  unfold last_session_only, select. cbn [s_rows]. rewrite filter_In, Z.eqb_eq.
  reflexivity.
Qed.

Lemma last_session_nonempty s :
  is_empty s = false -> is_empty (last_session_only s) = false.
Proof.
  intros Hne. apply Normalization.is_empty_false_rows in Hne.
  assert (Hidx : map (floor_to DAY_NS) (index_of s) <> []).
  { unfold index_of. intros H. apply map_eq_nil in H. apply map_eq_nil in H.
    contradiction. }
  destruct (index_max_spec _ Hidx) as [Hin _].
  apply in_map_iff in Hin as (t & Ht & Hin).
  unfold index_of in Hin. apply in_map_iff in Hin as (r & <- & Hr).
  apply Normalization.is_empty_false_rows. intros Hnil.
  assert (H : In r (s_rows (last_session_only s)))
    by (apply last_session_rows; split; assumption).
  rewrite Hnil in H. exact H.
Qed.

(** Strategies that fall through leave in the trace their own requests
    only. *)
Lemma fall_through_trace interval pre w w1 :
  fall_through respond interval pre w w1 ->
  exists tr,
    w_trace w1 = w_trace w ++ tr
    /\ Forall (fun c => In (fst c) (map st_request pre)) tr.
Proof.
  induction 1 as [w | st rest w wa wb Hrun _ (tr & Ht & Hall)].
  - exists []. rewrite app_nil_r. auto.
  - assert (Hweak : Forall (fun c : Request * Outcome price =>
                              In (fst c) (map st_request (st :: rest))) tr).
    { eapply Forall_impl; [|exact Hall]. cbn. auto. }
    destruct (run_strategy_cases interval st w)
      as [(_ & Hr)
         | [(e & p' & _ & _ & _ & Hr)
           | [(raw & p' & _ & _ & Hr) | (e & p' & _ & _ & _ & Hr)]]];
      rewrite Hr in Hrun; try discriminate Hrun.
    + injection Hrun as <-. exists tr. auto.
    + injection Hrun as <-.
      exists ((st_request st, Raise e) :: tr). cbn [w_trace] in Ht.
      split; [rewrite Ht, <- app_assoc; reflexivity|].
      constructor; [left; reflexivity | exact Hweak].
    + injection Hrun as _ <-.
      exists ((st_request st, Ok raw) :: tr). cbn [w_trace] in Ht.
      split; [rewrite Ht, <- app_assoc; reflexivity|].
      constructor; [left; reflexivity | exact Hweak].
Qed.

Lemma NoDup_middle {A} (l1 l2 : list A) (x y : A) :
  NoDup (l1 ++ x :: l2) -> In y l2 -> y <> x /\ ~ In y l1.
Proof.
  intros Hnd Hy. apply NoDup_remove in Hnd as [Hnd Hx]. split.
  - intros ->. apply Hx. apply in_or_app. right. exact Hy.
  - intros Hy1. clear Hx. induction l1 as [|a l1 IH]; [contradiction|].
    cbn in Hnd. apply NoDup_cons_iff in Hnd as [Ha Hnd].
    destruct Hy1 as [-> | Hy1]; [|auto].
    apply Ha. apply in_or_app. right. exact Hy.
Qed.

(** The four strategies make four different requests. *)
Lemma strategies_requests_distinct ticker start end_ e1 :
  NoDup (map st_request
           (@fast_path price ticker start end_ :: windowed ticker start end_ e1)).
Proof.
  unfold fast_path, windowed. cbv zeta. cbn [map st_request].
  repeat constructor; cbn [In]; intros H;
    repeat (destruct H as [H | H]; try discriminate H); try contradiction.
  destruct (span_of start end_ <=? 7); discriminate H.
Qed.



(** Every run of [fetch_history]: the calls it made, the lines it left
    on stderr, and how it ended.  It raises in two ways only: widening the
    end date by one day leaves the calendar, or a provider call raised an
    exception that no [except Exception] catches, which is then the last
    call made. *)
Lemma fetch_history_run ticker start end_ w :
  exists out w' tr,
    fetch_history respond ticker start end_ w = (out, w')
    /\ w_trace w' = w_trace w ++ tr
    /\ match out with
       | Ok s =>
           forallb caught tr = true
           /\ w_stderr w' =
              w_stderr w ++ logs_of tr
              ++ (if is_empty s
                  then [no_data_line ticker start end_
                          (pick_interval (span_of start end_))]
                  else [])
           /\ (is_empty s = true -> s = empty_series)
       | Raise e =>
           w_stderr w' = w_stderr w ++ logs_of tr
           /\ ((date_add_days end_ 1 = Raise e /\ forallb caught tr = true)
               \/ (exn_is_Exception e = false
                   /\ exists req p p' tr0,
                        respond p req = (Raise e, p')
                        /\ tr = tr0 ++ [(req, Raise e)]
                        /\ forallb caught tr0 = true))
       end.
Proof.
  rewrite fetch_history_unfold. unfold fetch_in_order. cbv zeta.
  set (interval := pick_interval (span_of start end_)).
  assert (Hfast : Forall (faithful interval) [fast_path ticker start end_])
    by (constructor; [apply fast_path_faithful | constructor]).
  destruct (first_success_run interval _
              (end_inclusive <- lift (date_add_days end_ 1) ;;
               first_success respond interval
                 (windowed ticker start end_ end_inclusive)
                 (no_data ticker start end_)) w Hfast)
    as (tr & w1 & Ht & Hs
        & [(s1 & st & raw & p & p' & Heq & Hne & _ & _ & _ & _ & Hc)
          | [(Heq & Hc) | (e & req & p & p' & tr0 & Heq & He & Hresp & Htr & Hc)]]);
    rewrite Heq; clear Heq.
  - exists (Ok s1), w1, tr. rewrite Hne, app_nil_r.
    repeat split; auto. discriminate.
  - unfold bind at 1, lift.
    destruct (date_add_days end_ 1) as [e1|e] eqn:He1.
    + pose proof (windowed_faithful ticker start end_ e1) as Hwin.
      destruct (first_success_run interval _ (no_data ticker start end_) w1 Hwin)
        as (tr2 & w2 & Ht2 & Hs2
            & [(s1 & st & raw & p & p' & Heq & Hne & _ & _ & _ & _ & Hc2)
              | [(Heq & Hc2)
                | (e & req & p & p' & tr0 & Heq & He & Hresp & Htr & Hc2)]]);
        rewrite Heq; clear Heq.
      * exists (Ok s1), w2, (tr ++ tr2). rewrite Hne, app_nil_r.
        split; [reflexivity|].
        split; [rewrite Ht2, Ht, app_assoc; reflexivity|].
        split; [rewrite forallb_app, Hc, Hc2; reflexivity|].
        split; [rewrite Hs2, Hs, logs_of_app, app_assoc; reflexivity|].
        discriminate.
      * unfold no_data, bind, eprint, ret.
        eexists (Ok empty_series), _, (tr ++ tr2).
        split; [reflexivity|]. cbn [w_trace w_stderr is_empty empty_series s_rows].
        split; [rewrite Ht2, Ht, app_assoc; reflexivity|].
        split; [rewrite forallb_app, Hc, Hc2; reflexivity|].
        split; [rewrite Hs2, Hs, logs_of_app, !app_assoc; reflexivity|].
        reflexivity.
      * exists (Raise e), w2, (tr ++ tr2).
        split; [reflexivity|].
        split; [rewrite Ht2, Ht, app_assoc; reflexivity|].
        split; [rewrite Hs2, Hs, logs_of_app, app_assoc; reflexivity|].
        right. split; [exact He|]. exists req, p, p', (tr ++ tr0).
        split; [exact Hresp|].
        split; [rewrite Htr, app_assoc; reflexivity|].
        rewrite forallb_app, Hc, Hc2. reflexivity.
    + exists (Raise e), w1, tr. repeat split; auto.
  - exists (Raise e), w1, tr.
    split; [reflexivity|]. split; [exact Ht|]. split; [exact Hs|].
    right. split; [exact He|]. exists req, p, p', tr0. auto.
Qed.

End Lemmas.
End Fetcher.

Module FetcherClaims.
Import Fetcher.

Section Claims.
Context {price P : Type}.
Variable respond : P -> Request -> Outcome price * P.
Implicit Types (w : World price P) (s : Series price).


(** C2 (amended): for every ticker and every window whose end is before
    9999-12-31, [fetch_history] raises only when a provider call raises an
    exception of a class outside [Exception] (KeyboardInterrupt, SystemExit
    and the like), which no [except Exception] catches: that exception
    propagates as it is, from the last call made.  Every exception of a
    class derived from [Exception] that a provider call raises is caught
    and leaves one line on stderr, in order, so with a provider that raises
    nothing else [fetch_history] never raises: it returns a series; a
    returned series that is empty is the fresh empty series, and then one
    final line naming the ticker, the window and the interval closes the
    diagnostics; a non-empty result adds no such line. *)
Theorem fetch_history_never_raises ticker start end_ w
    (Hend : valid_date end_) (Hmax : end_ < DATE_MAX) :
  exists out w' tr,
    fetch_history respond ticker start end_ w = (out, w')
    /\ w_trace w' = w_trace w ++ tr
    /\ match out with
       | Ok s =>
           forallb caught tr = true
           /\ w_stderr w' =
              w_stderr w ++ logs_of tr
              ++ (if is_empty s
                  then [no_data_line ticker start end_
                          (pick_interval (span_of start end_))]
                  else [])
           /\ (is_empty s = true -> s = empty_series)
       | Raise e =>
           exn_is_Exception e = false
           /\ w_stderr w' = w_stderr w ++ logs_of tr
           /\ exists req p p' tr0,
                respond p req = (Raise e, p')
                /\ tr = tr0 ++ [(req, Raise e)]
                /\ forallb caught tr0 = true
       end
    /\ (raises_Exceptions_only respond -> exists s, out = Ok s).
Proof.
  assert (He1 : date_add_days end_ 1 = Ok (end_ + 1))
    by (apply Planner.date_add_days_ok; unfold valid_date in Hend; lia).
  destruct (fetch_history_run respond ticker start end_ w)
    as (out & w' & tr & Hrun & Ht & Hout).
  exists out, w', tr. split; [exact Hrun|]. split; [exact Ht|].
  destruct out as [s|e].
  - split; [exact Hout|]. intros _. exists s. reflexivity.
  - destruct Hout as (Hs & [(Hov & _) | (He & req & p & p' & tr0 & Hresp & Htr & Hc)]).
    + rewrite He1 in Hov. discriminate Hov.
    + split.
      * split; [exact He|]. split; [exact Hs|].
        exists req, p, p', tr0. auto.
      * intros Honly. rewrite (Honly _ _ _ _ Hresp) in He. discriminate He.
Qed.

(** C3: [fetch_history] is the ordered list of its four strategies (the
    single-session intraday fast path, the start/end download, the
    [history] retry, the trailing-period intraday fallback), run until the
    first one yields a non-empty series: when the strategies before one all
    fall through and that one yields a series, [fetch_history] returns
    exactly that series in the world that strategy left, its request being
    the last call made, and the request of no later strategy occurs among
    the calls made.  In particular, in
    a one-day window where the fast path gets an empty answer and the
    start/end download normalizes to a 10-row series, the result is that
    series and the only calls made are those two. *)
Theorem fetch_history_first_success ticker start end_ e1
    (He1 : date_add_days end_ 1 = Ok e1) :
  let interval := pick_interval (span_of start end_) in
  let sts := fast_path ticker start end_ :: windowed ticker start end_ e1 in
  (forall w,
     fetch_history respond ticker start end_ w
     = first_success respond interval sts (no_data ticker start end_) w)
  /\ (forall pre st post w w1 s w2,
        sts = pre ++ st :: post ->
        fall_through respond interval pre w w1 ->
        run_strategy respond interval st w1 = (Ok (Some s), w2) ->
        fetch_history respond ticker start end_ w = (Ok s, w2)
        /\ is_empty s = false
        /\ exists tr raw,
             w_trace w2 = w_trace w ++ tr ++ [(st_request st, Ok raw)]
             /\ w_stderr w2 = w_stderr w1
             /\ Forall (fun c => In (fst c) (map st_request pre)) tr
             /\ forall later,
                  In later post ->
                  ~ In (st_request later)
                       (map fst (tr ++ [(st_request st, Ok raw)])))
  /\ (forall w d0 p1 d p2 s,
        span_of start end_ = 1 ->
        respond (w_prov w) (DownloadPeriod ticker "5d" interval) = (Ok d0, p1) ->
        is_empty (to_close_series interval d0) = true ->
        respond p1 (DownloadRange ticker start e1 interval) = (Ok d, p2) ->
        to_close_series interval d = s ->
        len s = 10 ->
        fetch_history respond ticker start end_ w =
        (Ok s,
         mkWorld p2
           (w_trace w ++ [(DownloadPeriod ticker "5d" interval, Ok d0);
                          (DownloadRange ticker start e1 interval, Ok d)])
           (w_stderr w))).
Proof.
  cbv zeta.
  set (interval := pick_interval (span_of start end_)).
  assert (Href : forall w,
             fetch_history respond ticker start end_ w
             = first_success respond interval
                 (fast_path ticker start end_ :: windowed ticker start end_ e1)
                 (no_data ticker start end_) w).
  { intros w. rewrite fetch_history_unfold. unfold fetch_in_order. cbv zeta.
    fold interval. cbn [first_success]. unfold bind at 1 3.
    destruct (run_strategy respond interval (fast_path ticker start end_) w)
      as [[[s|]|e] w1]; try reflexivity.
    unfold bind at 1, lift. rewrite He1. reflexivity. }
  split; [exact Href|]. split.
  - intros pre st post w w1 s w2 Hsts Hpre Hst.
    rewrite Href, Hsts.
    split; [eapply first_success_hit; eassumption|].
    destruct (run_strategy_cases respond interval st w1)
      as [(_ & Hrun)
         | [(e & p' & _ & _ & _ & Hrun)
           | [(raw & p' & _ & _ & Hrun) | (e & p' & _ & _ & _ & Hrun)]]];
      rewrite Hrun in Hst; try discriminate.
    cbv zeta in Hst.
    destruct (is_empty (to_close_series interval raw)); cbn [negb andb] in Hst;
      [discriminate|].
    destruct (is_empty (st_restrict st (to_close_series interval raw))) eqn:He;
      cbn [negb] in Hst; [discriminate|].
    injection Hst as <- <-. split; [exact He|].
    destruct (fall_through_trace respond interval pre w w1 Hpre) as (tr & Ht & Hall).
    exists tr, raw. cbn [w_trace w_stderr].
    split; [rewrite Ht, <- app_assoc; reflexivity|].
    split; [reflexivity|]. split; [exact Hall|].
    intros later Hlater Hin.
    pose proof (strategies_requests_distinct (price := price) ticker start end_ e1)
      as Hnd.
    rewrite Hsts, map_app in Hnd. cbn [map] in Hnd.
    destruct (NoDup_middle _ _ (st_request st) (st_request later) Hnd
                (in_map st_request _ _ Hlater)) as [Hneq Hnotin].
    rewrite map_app in Hin. apply in_app_or in Hin as [Hin | Hin].
    + apply in_map_iff in Hin as (c & Hc & Hin).
      rewrite Forall_forall in Hall. apply Hnotin. rewrite <- Hc. auto.
    + cbn in Hin. destruct Hin as [Hin | []]. congruence.
  - intros w d0 p1 d p2 s Hspan Hr0 He0 Hr Hs Hlen.
    rewrite Href.
    assert (Hne : is_empty s = false).
    { destruct (is_empty s) eqn:E; [|reflexivity].
      apply Normalization.is_empty_len in E. lia. }
    erewrite first_success_step.
    2: { apply run_strategy_ok with (raw := d0) (p' := p1).
         - unfold fast_path. cbv zeta. cbn [st_applies].
           fold interval. unfold interval. rewrite Hspan. reflexivity.
         - exact Hr0. }
    cbv zeta. rewrite He0. cbn [negb andb].
    unfold windowed. cbv zeta. fold interval.
    erewrite first_success_step.
    2: { apply run_strategy_ok with (raw := d) (p' := p2).
         - reflexivity.
         - exact Hr. }
    cbv zeta. cbn [st_restrict st_request fast_path]. rewrite Hs, Hne.
    cbn [negb andb w_trace w_stderr]. rewrite <- app_assoc. reflexivity.
Qed.

(** C6: in a one-day window the fast path keeps, of the normalized
    trailing-period data, exactly the bars of the most recent calendar day
    that has bars: every timestamp returned falls on that day and no bar of
    an earlier day is included; so with Monday and Tuesday bars and the
    window from Tuesday to Tuesday every returned timestamp falls on
    Tuesday. *)
Theorem fast_path_last_session ticker start end_ w raw p'
    (Hspan : span_of start end_ = 1)
    (Hresp : respond (w_prov w) (DownloadPeriod ticker "5d" I5m) = (Ok raw, p'))
    (Hne : is_empty (to_close_series I5m raw) = false) :
  let s0 := to_close_series I5m raw in
  let last_day := index_max (map (floor_to DAY_NS) (index_of s0)) in
  exists s,
    fetch_history respond ticker start end_ w =
    (Ok s, mkWorld p' (w_trace w ++ [(DownloadPeriod ticker "5d" I5m, Ok raw)])
             (w_stderr w))
    /\ is_empty s = false
    /\ In last_day (map (floor_to DAY_NS) (index_of s0))
    /\ (forall t, In t (index_of s0) -> floor_to DAY_NS t <= last_day)
    /\ (forall r, In r (s_rows s)
                  <-> In r (s_rows s0) /\ floor_to DAY_NS (fst r) = last_day)
    /\ (forall t, In t (index_of s) -> floor_to DAY_NS t = last_day)
    /\ (forall tuesday,
          In (Timestamp_of_date tuesday) (map (floor_to DAY_NS) (index_of s0)) ->
          (forall t, In t (index_of s0) ->
                     floor_to DAY_NS t <= Timestamp_of_date tuesday) ->
          forall t, In t (index_of s) ->
                    floor_to DAY_NS t = Timestamp_of_date tuesday).
Proof.
  cbv zeta.
  set (s0 := to_close_series I5m raw) in *.
  assert (Hidx : map (floor_to DAY_NS) (index_of s0) <> []).
  { apply Normalization.is_empty_false_rows in Hne. unfold index_of.
    intros H. apply map_eq_nil in H. apply map_eq_nil in H. contradiction. }
  destruct (index_max_spec _ Hidx) as [Hin Hmax].
  assert (Hon : forall t, In t (index_of (last_session_only s0)) ->
                          floor_to DAY_NS t
                          = index_max (map (floor_to DAY_NS) (index_of s0))).
  { intros t Ht. unfold index_of in Ht. apply in_map_iff in Ht as (r & <- & Hr).
    apply last_session_rows in Hr. apply Hr. }
  exists (last_session_only s0).
  split; [|split; [|split; [|split; [|split; [|split]]]]].
  - rewrite fetch_history_unfold. unfold fetch_in_order. cbv zeta.
    rewrite Hspan. change (pick_interval 1) with I5m.
    erewrite first_success_step.
    2: { apply run_strategy_ok with (raw := raw) (p' := p').
         - unfold fast_path. cbv zeta. cbn [st_applies]. rewrite Hspan. reflexivity.
         - unfold fast_path. cbv zeta. cbn [st_request]. rewrite Hspan. exact Hresp. }
    cbv zeta. fold s0. unfold fast_path. cbv zeta. cbn [st_restrict st_request].
    rewrite Hspan. change (pick_interval 1) with I5m.
    rewrite Hne, (last_session_nonempty s0 Hne). reflexivity.
  - apply last_session_nonempty. exact Hne.
  - exact Hin.
  - intros t Ht. apply Hmax. apply in_map. exact Ht.
  - intros r. apply last_session_rows.
  - exact Hon.
  - intros tuesday Htue Hlatest t Ht. rewrite (Hon t Ht).
    apply Z.le_antisymm.
    + apply in_map_iff in Hin as (t' & <- & Ht'). apply Hlatest. exact Ht'.
    + apply Hmax. exact Htue.
Qed.

End Claims.




(** C2, as stated, fails on the last day of the calendar: when the fast
    path finds nothing, widening the end date by one day raises
    [OverflowError] outside every [try]. *)
Lemma fetch_history_raises_at_date_max :
  valid_date (DATE_MAX - 1) /\ valid_date DATE_MAX /\ DATE_MAX - 1 <= DATE_MAX
  /\ fetch_history quiet_provider "AAPL" (DATE_MAX - 1) DATE_MAX start_world
     = (Raise OverflowError,
        mkWorld 1%nat [(DownloadPeriod "AAPL" "5d" I5m, Ok None)] []).
Proof.
  unfold valid_date, DATE_MIN, DATE_MAX.
  repeat split; try lia; reflexivity.
Qed.

(** C2 also fails away from the end of the calendar: a provider call
    interrupted from the keyboard ends [fetch_history] with that exception,
    which no [except Exception] catches; nothing is logged. *)
Lemma fetch_history_propagates_interrupt :
  fetch_history interrupted_provider "AAPL" MON WED start_world
  = (Raise (BaseExn "KeyboardInterrupt" EmptyString),
     mkWorld 1%nat
       [(DownloadRange "AAPL" MON (WED + 1) I5m,
         Raise (BaseExn "KeyboardInterrupt" EmptyString))]
       []).
Proof. reflexivity. Qed.

Lemma failing_provider_raises_Exceptions_only :
  raises_Exceptions_only failing_provider.
Proof. intros p req e p' H. injection H as <- _. reflexivity. Qed.

Lemma fetch_history_never_raises_witness :
  valid_date WED /\ WED < DATE_MAX /\ raises_Exceptions_only failing_provider
  /\ exists s w' tr,
       fetch_history failing_provider "AAPL" MON WED start_world = (Ok s, w')
       /\ w_trace w' = w_trace (@start_world Z) ++ tr
       /\ forallb caught tr = true
       /\ w_stderr w' =
          w_stderr (@start_world Z) ++ logs_of tr
          ++ (if is_empty s
              then [no_data_line "AAPL" MON WED (pick_interval (span_of MON WED))]
              else [])
       /\ (is_empty s = true -> s = empty_series).
Proof.
  assert (Hv : valid_date WED) by (unfold valid_date, DATE_MIN, DATE_MAX, WED; lia).
  assert (Hm : WED < DATE_MAX) by (unfold DATE_MAX, WED; lia).
  split; [exact Hv|]. split; [exact Hm|].
  split; [exact failing_provider_raises_Exceptions_only|].
  destruct (fetch_history_never_raises failing_provider "AAPL" MON WED start_world
              Hv Hm)
    as (out & w' & tr & Hrun & Ht & Hout & Hok).
  destruct (Hok failing_provider_raises_Exceptions_only) as [s ->].
  exists s, w', tr. split; [exact Hrun|]. split; [exact Ht|]. exact Hout.
Defined.

Lemma fetch_history_first_success_witness :
  date_add_days TUE 1 = Ok WED
  /\ len (to_close_series I5m (Some ten_rows)) = 10
  /\ fetch_history fallback_provider "AAPL" MON TUE start_world =
     (Ok (to_close_series I5m (Some ten_rows)),
      mkWorld 2%nat
        [(DownloadPeriod "AAPL" "5d" I5m, Ok (Some no_rows));
         (DownloadRange "AAPL" MON WED I5m, Ok (Some ten_rows))]
        []).
Proof.
  split; [reflexivity|]. split; [reflexivity|].
  destruct (fetch_history_first_success fallback_provider "AAPL" MON TUE WED eq_refl)
    as (_ & _ & H).
  apply (H start_world (Some no_rows) 1%nat (Some ten_rows) 2%nat); reflexivity.
Defined.

Lemma fast_path_last_session_witness :
  span_of TUE TUE = 1
  /\ exists s w',
       fetch_history sessions_provider "AAPL" TUE TUE start_world = (Ok s, w')
       /\ is_empty s = false
       /\ forall t, In t (index_of s) -> floor_to DAY_NS t = Timestamp_of_date TUE.
Proof.
  split; [reflexivity|].
  destruct (fast_path_last_session sessions_provider "AAPL" TUE TUE start_world
              (Some two_sessions) 1%nat eq_refl eq_refl eq_refl)
    as (s & Hrun & Hne & _ & _ & _ & _ & Htue).
  exists s. eexists. split; [exact Hrun|]. split; [exact Hne|].
  apply Htue.
  - cbv. tauto.
  - intros t Ht. cbv in Ht.
    repeat (destruct Ht as [<- | Ht]; [cbv; discriminate|]). contradiction.
Defined.

End FetcherClaims.

(* ------------------------------------------------------------------ *)
(** ** Orchestration entry point *)

Module Orchestration.

Lemma ascii_upper_idempotent (c : ascii) :
  ascii_upper (ascii_upper c) = ascii_upper c.
Proof. destruct c as [[] [] [] [] [] [] [] []]; reflexivity. Qed.

Lemma upper_idempotent (s : string) : upper (upper s) = upper s.
Proof.
  unfold upper. induction s as [|c s IH]; cbn; [reflexivity|].
  rewrite ascii_upper_idempotent, IH. reflexivity.
Qed.

Lemma upper_empty (s : string) : upper s = EmptyString -> s = EmptyString.
Proof. destruct s; cbn; [reflexivity | discriminate]. Qed.

Lemma lstrip_spec (l : list ascii) :
  exists pre,
    l = pre ++ lstrip_chars l
    /\ forallb ascii_isspace pre = true
    /\ match lstrip_chars l with
       | [] => True
       | c :: _ => ascii_isspace c = false
       end.
Proof.
  induction l as [|c l (pre & Hl & Hpre & Hhd)]; cbn [lstrip_chars].
  - exists []. auto.
  - destruct (ascii_isspace c) eqn:Hc.
    + exists (c :: pre). cbn. rewrite Hc, Hpre. rewrite <- Hl. auto.
    + exists []. cbn. auto.
Qed.

Lemma strip_trimmed (s : string) : trimmed s (strip s).
Proof.
  unfold trimmed, strip. rewrite list_ascii_of_string_of_list_ascii.
  set (l := list_ascii_of_string s).
  destruct (lstrip_spec l) as (pre & Hl & Hpre & Hhd).
  set (l1 := lstrip_chars l) in *.
  destruct (lstrip_spec (rev l1)) as (pre2 & Hl2 & Hpre2 & Hhd2).
  set (l3 := lstrip_chars (rev l1)) in *.
  assert (Hl1 : l1 = rev l3 ++ rev pre2).
  { rewrite <- rev_app_distr, <- Hl2, rev_involutive. reflexivity. }
  exists pre, (rev pre2). repeat split.
  - rewrite <- Hl1. exact Hl.
  - exact Hpre.
  - apply forallb_forall. intros x Hx. apply in_rev in Hx.
    rewrite forallb_forall in Hpre2. auto.
  - destruct (rev l3) as [|c r] eqn:Hr; [exact I|].
    rewrite Hl1 in Hhd. cbn in Hhd. exact Hhd.
  - rewrite rev_involutive. exact Hhd2.
Qed.

Section Claims.
Context {price P : Type}.
Variable respond : P -> Request -> Outcome price * P.
Implicit Types (w : World price P) (s : Series price).

Lemma update_chart_try_no_data today ticker range_key w end0 start end_ s w1 :
  get_last_trading_day today = Ok end0 ->
  compute_window_endpoints range_key end0 = Ok (start, end_) ->
  fetch_history respond
    (or_default (upper (strip (str_or ticker EmptyString))) DEFAULT_TICKER)
    start end_ w = (Ok s, w1) ->
  is_empty s = true ->
  update_chart_try respond today ticker range_key w =
  (let t := or_default (upper (strip (str_or ticker EmptyString))) DEFAULT_TICKER in
   Ok (mkFigure ("No data for '" +++ t +++ "' in " +++ date_str start
                 +++ "→" +++ date_str end_ +++ ". Try another range.") None,
       "No rows returned for " +++ t +++ "."),
   w1).
Proof.
  intros Hltd Hcwe Hfetch Hs.
  unfold update_chart_try. cbv zeta. unfold bind at 1, lift at 1. rewrite Hltd.
  unfold bind at 1, lift at 1. rewrite Hcwe.
  unfold bind at 1. rewrite Hfetch.
  apply Normalization.is_empty_len in Hs. rewrite Hs. reflexivity.
Qed.

Lemma make_figure_raises s ticker e :
  make_figure s ticker = Raise e -> e = IndexError.
Proof.
  unfold make_figure. cbv zeta.
  match goal with
  | |- match ?l with [] => _ | _ :: _ => _ end = _ -> _ => destruct l
  end; [intros [=]; auto|].
  match goal with
  | |- (let '(_, _) := ?c in _) = _ -> _ => destruct c
  end.
  discriminate.
Qed.

(** The body of [update_chart] raises an exception of a class outside
    [Exception] only when a provider call raised it: it is then the last
    call made. *)
Lemma update_chart_try_uncaught today ticker range_key w e w1 :
  update_chart_try respond today ticker range_key w = (Raise e, w1) ->
  exn_is_Exception e = false ->
  exists req p p' tr0,
    respond p req = (Raise e, p')
    /\ w_trace w1 = w_trace w ++ tr0 ++ [(req, Raise e)]
    /\ forallb caught tr0 = true.
Proof.
  unfold update_chart_try. cbv zeta. unfold bind at 1, lift at 1.
  destruct (get_last_trading_day today) as [end0|e0] eqn:Hltd.
  2: { intros [= <- <-] He.
       rewrite (Planner.get_last_trading_day_raises _ _ Hltd) in He.
       discriminate He. }
  unfold bind at 1, lift at 1.
  destruct (compute_window_endpoints range_key end0) as [[start end_]|e0] eqn:Hcwe.
  2: { intros [= <- <-] He.
       rewrite (Planner.compute_window_endpoints_raises _ _ _ Hcwe) in He.
       discriminate He. }
  unfold bind at 1.
  destruct (Fetcher.fetch_history_run respond
              (or_default (upper (strip (str_or ticker EmptyString))) DEFAULT_TICKER)
              start end_ w)
    as (out & w' & tr & Hrun & Ht & Hout).
  rewrite Hrun. destruct out as [s|e0].
  - destruct (len s =? 0); [discriminate|].
    unfold bind at 1, lift at 1.
    destruct (make_figure s _) as [fig|e0] eqn:Hfig.
    2: { intros [= <- <-] He. rewrite (make_figure_raises _ _ _ Hfig) in He.
         discriminate He. }
    unfold bind at 1, lift at 1.
    destruct range_key as [k|]; [discriminate|].
    intros [= <- <-] He. discriminate He.
  - intros [= <- <-] He.
    destruct Hout as (_ & [(Hov & _) | (_ & req & p & p' & tr0 & Hresp & Htr & Hc)]).
    + rewrite (Planner.date_add_days_raises _ _ _ Hov) in He. discriminate He.
    + exists req, p, p', tr0. rewrite Ht, Htr. auto.
Qed.

(** C7 (amended): [update_chart] propagates an exception to its caller
    only when a provider call raises an exception of a class outside
    [Exception] (KeyboardInterrupt, SystemExit and the like), which
    [except Exception] does not catch: that exception propagates as it is.
    Otherwise, and so always with a provider that raises nothing else, it
    returns a figure and a status message.  The ticker is the input trimmed
    and then uppercased, or the default ticker when the trimmed input is
    blank.  When the fetched series is empty the figure carries only the
    title [No data for '<ticker>' in <start>→<end>. Try another range.],
    which names the ticker and the window, and the status message is
    [No rows returned for <ticker>.], which names the ticker only.  When
    the body raises an exception of a class derived from [Exception], the
    figure is titled Error and the status message is
    [Error: <kind>: <text>] of the exception. *)
Theorem update_chart_never_raises today ticker range_key w :
  let input := str_or ticker EmptyString in
  let t := or_default (upper (strip input)) DEFAULT_TICKER in
  exists out w',
    update_chart respond today ticker range_key w = (out, w')
    /\ (t <> EmptyString
        /\ upper t = t
        /\ trimmed input (strip input)
        /\ (strip input = EmptyString -> t = DEFAULT_TICKER)
        /\ (strip input <> EmptyString -> t = upper (strip input)))
    /\ match out with
       | Ok (fig, msg) =>
           (forall end0 start end_ s w1,
              get_last_trading_day today = Ok end0 ->
              compute_window_endpoints range_key end0 = Ok (start, end_) ->
              fetch_history respond t start end_ w = (Ok s, w1) ->
              is_empty s = true ->
              fig = mkFigure ("No data for '" +++ t +++ "' in " +++ date_str start
                              +++ "→" +++ date_str end_ +++ ". Try another range.")
                      None
              /\ msg = "No rows returned for " +++ t +++ "."
              /\ w' = w1)
           /\ (forall e w1,
                 update_chart_try respond today ticker range_key w = (Raise e, w1) ->
                 exn_is_Exception e = true
                 /\ fig = mkFigure "Error" None
                 /\ msg = "Error: " +++ exn_kind e +++ ": " +++ exn_text e
                 /\ w' = w1)
       | Raise e =>
           exn_is_Exception e = false
           /\ update_chart_try respond today ticker range_key w = (Raise e, w')
           /\ exists req p p' tr0,
                respond p req = (Raise e, p')
                /\ w_trace w' = w_trace w ++ tr0 ++ [(req, Raise e)]
                /\ forallb caught tr0 = true
       end
    /\ (raises_Exceptions_only respond -> exists fig msg, out = Ok (fig, msg)).
Proof.
  cbv zeta.
  set (input := str_or ticker EmptyString).
  set (t := or_default (upper (strip input)) DEFAULT_TICKER).
  assert (Ht : t <> EmptyString
               /\ upper t = t
               /\ trimmed input (strip input)
               /\ (strip input = EmptyString -> t = DEFAULT_TICKER)
               /\ (strip input <> EmptyString -> t = upper (strip input))).
  { unfold t. destruct (upper (strip input)) as [|c r] eqn:Hu.
    - cbn [or_default]. apply upper_empty in Hu.
      split; [discriminate|]. split; [reflexivity|].
      split; [apply strip_trimmed|]. split; [reflexivity | congruence].
    - cbn [or_default].
      split; [discriminate|].
      split; [rewrite <- Hu; apply upper_idempotent|].
      split; [apply strip_trimmed|].
      split; [intros H; rewrite H in Hu; discriminate | intros _; reflexivity]. }
  unfold update_chart, try_except.
  destruct (update_chart_try respond today ticker range_key w)
    as [[[fig msg]|e] w1] eqn:Htry.
  - exists (Ok (fig, msg)), w1. split; [reflexivity|]. split; [exact Ht|].
    split; [split|].
    + intros end0 start end_ s w2 Hltd Hcwe Hfetch Hs.
      rewrite (update_chart_try_no_data _ _ _ _ _ _ _ _ _ Hltd Hcwe Hfetch Hs) in Htry.
      cbv zeta in Htry. fold input in Htry. fold t in Htry.
      injection Htry as <- <- <-. auto.
    + intros e w2 [=].
    + intros _. exists fig, msg. reflexivity.
  - destruct (exn_is_Exception e) eqn:He.
    + eexists (Ok (_, _)), w1. unfold ret. split; [reflexivity|].
      split; [exact Ht|]. split; [split|].
      * intros end0 start end_ s w2 Hltd Hcwe Hfetch Hs.
        rewrite (update_chart_try_no_data _ _ _ _ _ _ _ _ _ Hltd Hcwe Hfetch Hs)
          in Htry.
        discriminate.
      * intros e' w2 [= <- <-]. auto.
      * intros _. eexists _, _. reflexivity.
    + exists (Raise e), w1. split; [reflexivity|]. split; [exact Ht|].
      destruct (update_chart_try_uncaught _ _ _ _ _ _ Htry He)
        as (req & p & p' & tr0 & Hresp & Htr & Hc).
      split.
      * split; [exact He|]. split; [reflexivity|].
        exists req, p, p', tr0. auto.
      * intros Honly. rewrite (Honly _ _ _ _ Hresp) in He. discriminate He.
Qed.

End Claims.

(** C7, as stated, fails on the status message: on an empty series it
    names the ticker and not the window; the window is named in the title
    of the figure. *)
Lemma update_chart_status_omits_window :
  exists fig msg w',
    update_chart quiet_provider WED (Some " aapl ") (Some "1m") start_world
    = (Ok (fig, msg), w')
    /\ compute_window_endpoints (Some "1m") WED = Ok (WED - 30, WED)
    /\ msg = "No rows returned for AAPL."
    /\ names_window msg (WED - 30) WED = false
    /\ fig_title fig
       = "No data for 'AAPL' in 2023-12-11→2024-01-10. Try another range."
    /\ names_window (fig_title fig) (WED - 30) WED = true.
Proof.
  eexists. eexists. eexists. split; [vm_compute; reflexivity|].
  repeat split; reflexivity.
Qed.

(** C7 also fails on what is propagated: a provider call interrupted
    from the keyboard ends [update_chart] with that exception, which the
    [except Exception] of line 501 does not catch. *)
Lemma update_chart_propagates_interrupt :
  update_chart interrupted_provider WED (Some " aapl ") (Some "1m") start_world
  = (Raise (BaseExn "KeyboardInterrupt" EmptyString),
     mkWorld 1%nat
       [(DownloadRange "AAPL" (WED - 30) (WED + 1) I60m,
         Raise (BaseExn "KeyboardInterrupt" EmptyString))]
       []).
Proof. reflexivity. Qed.

Lemma update_chart_never_raises_witness :
  raises_Exceptions_only quiet_provider
  /\ exists fig msg w',
       update_chart quiet_provider WED (Some " aapl ") (Some "1m") start_world
       = (Ok (fig, msg), w')
       /\ fig = mkFigure
                  "No data for 'AAPL' in 2023-12-11→2024-01-10. Try another range."
                  None
       /\ msg = "No rows returned for AAPL.".
Proof.
  assert (Honly : raises_Exceptions_only quiet_provider)
    by (intros p req e p' H; discriminate H).
  split; [exact Honly|].
  destruct (update_chart_never_raises quiet_provider WED (Some " aapl ")
              (Some "1m") start_world)
    as (out & w' & Hrun & _ & Hout & Hok).
  destruct (Hok Honly) as (fig & msg & ->).
  exists fig, msg, w'. split; [exact Hrun|].
  destruct Hout as (Hnodata & _).
  destruct (Hnodata WED (WED - 30) WED empty_series
              (mkWorld 3%nat
                 [(DownloadRange "AAPL" (WED - 30) (WED + 1) I60m, Ok None);
                  (HistoryRange "AAPL" (WED - 30) (WED + 1) I60m, Ok None);
                  (DownloadPeriod "AAPL" "30d" I60m, Ok None)]
                 ["[fetch_history] no data for AAPL 2023-12-11→2024-01-10 (interval 60m)"])
              eq_refl eq_refl eq_refl eq_refl)
    as (Hfig & Hmsg & _).
  split; [exact Hfig | exact Hmsg].
Defined.

End Orchestration.

(* ================================================================== *)
(** * Further properties of the code *)

(* ------------------------------------------------------------------ *)
(** ** Window planner, continued *)

Module PlannerMore.
Import Planner.

Lemma ascii_lower_idempotent (c : ascii) :
  ascii_lower (ascii_lower c) = ascii_lower c.
Proof. destruct c as [[] [] [] [] [] [] [] []]; reflexivity. Qed.

Lemma ascii_lower_upper (c : ascii) :
  ascii_lower (ascii_upper c) = ascii_lower c.
Proof. destruct c as [[] [] [] [] [] [] [] []]; reflexivity. Qed.

Lemma lower_idempotent (s : string) : lower (lower s) = lower s.
Proof.
  unfold lower. induction s as [|c s IH]; cbn; [reflexivity|].
  rewrite ascii_lower_idempotent, IH. reflexivity.
Qed.

Lemma lower_upper (s : string) : lower (upper s) = lower s.
Proof.
  unfold lower, upper. induction s as [|c s IH]; cbn; [reflexivity|].
  rewrite ascii_lower_upper, IH. reflexivity.
Qed.

(** Changing the case of a keyword does not change what is looked up. *)
Lemma lower_str_or_map (f : ascii -> ascii) (k dflt : string) :
  (forall s, lower (str_map f s) = lower s) ->
  lower (str_or (Some (str_map f k)) dflt) = lower (str_or (Some k) dflt).
Proof.
  intros Hf. destruct k as [|c r]; [reflexivity|].
  change (str_or (Some (String c r)) dflt) with (String c r).
  change (str_or (Some (str_map f (String c r))) dflt)
    with (str_map f (String c r)).
  apply Hf.
Qed.

Lemma dict_get_default {V} (d : list (string * V)) (k : string) (dflt : V) :
  (forall v, ~ In (k, v) d) -> dict_get d k dflt = dflt.
Proof.
  induction d as [|[k' v'] d IH]; intros H; cbn; [reflexivity|].
  unfold str_eqb. destruct (String.eqb_spec k' k) as [-> | Hne].
  - exfalso. apply (H v'). left. reflexivity.
  - apply IH. intros v Hv. apply (H v). right. exact Hv.
Qed.

Lemma dict_get_cases {V} (d : list (string * V)) (k : string) (dflt : V) :
  In (k, dict_get d k dflt) d \/ dict_get d k dflt = dflt.
Proof.
  induction d as [|[k' v'] d IH]; cbn; [right; reflexivity|].
  unfold str_eqb. destruct (String.eqb_spec k' k) as [-> | Hne].
  - left. left. reflexivity.
  - destruct IH as [IH | IH]; [left; right; exact IH | right; exact IH].
Qed.

Lemma date_add_days_raise (d n : Z) (x : exn) :
  date_add_days d n = Raise x ->
  x = OverflowError /\ ~ (DATE_MIN <= d + n <= DATE_MAX).
Proof.
  unfold date_add_days. cbv zeta.
  destruct (Z.leb_spec DATE_MIN (d + n)); cbn;
    [destruct (Z.leb_spec (d + n) DATE_MAX); cbn|];
    intros [=]; subst; split; auto; lia.
Qed.

(** The offset the table branch of [compute_window_endpoints] uses. *)
Lemma table_offset_cases (k : option string) :
  str_eqb (lower (str_or k EmptyString)) "1d" = false ->
  In (dict_get RANGE_DAYS (lower (str_or k "3m")) 90) [7; 30; 90; 180; 365; 730].
Proof.
  intros H1d.
  assert (Hkey : lower (str_or k "3m") <> "1d").
  { destruct k as [[|c r]|]; cbn [str_or]; try (cbn; discriminate).
    cbn [str_or] in H1d. unfold str_eqb in H1d.
    apply String.eqb_neq in H1d. exact H1d. }
  pose proof (dict_get_cases RANGE_DAYS (lower (str_or k "3m")) 90) as Hcases.
  remember (dict_get RANGE_DAYS (lower (str_or k "3m")) 90) as n eqn:En.
  clear En.
  destruct Hcases as [Hin | Heq]; [|rewrite Heq; cbn; tauto].
  cbn in Hin.
  repeat (destruct Hin as [Hin | Hin]; [injection Hin as Hk Hn|]);
    try contradiction; try (symmetry in Hk; contradiction);
    rewrite <- Hn; cbn; tauto.
Qed.

(** X1: for each keyword of RANGE_DAYS other than 1d, written in any
    letter case, [compute_window_endpoints] returns the window that ends
    on the reference date and starts the keyword's number of days earlier,
    provided that start is still a date. *)
Theorem compute_window_endpoints_table (k : string) (n : Z) (d : date)
    (Hk : In (lower k, n) RANGE_DAYS) (Hnot1d : lower k <> "1d")
    (Hd : valid_date d) (Hs : DATE_MIN <= d - n) :
  compute_window_endpoints (Some k) d = Ok (d - n, d).
Proof.
  assert (Hne : forall dflt, str_or (Some k) dflt = k).
  { intros dflt. destruct k; [|reflexivity]. exfalso. cbn in Hk.
    repeat (destruct Hk as [Hk | Hk]; [discriminate Hk|]). exact Hk. }
  unfold compute_window_endpoints. rewrite !Hne.
  unfold str_eqb. apply String.eqb_neq in Hnot1d. rewrite Hnot1d.
  unfold valid_date in Hd.
  cbn in Hk.
  repeat (destruct Hk as [Hk | Hk]; [injection Hk as Hl Hn|]);
    try contradiction; rewrite <- Hl; rewrite <- Hn in *;
    match goal with
    | |- context [dict_get ?a ?b ?c] =>
        let v := eval vm_compute in (dict_get a b c) in
        change (dict_get a b c) with v
    end;
    unfold date_sub_days;
    (rewrite date_add_days_ok;
     [reflexivity | unfold DATE_MIN, DATE_MAX in *; lia]).
Qed.

Lemma compute_window_endpoints_table_witness :
  compute_window_endpoints (Some "1W") WED = Ok (WED - 7, WED).
Proof.
  apply (compute_window_endpoints_table "1W" 7 WED).
  - cbn. tauto.
  - discriminate.
  - unfold valid_date, DATE_MIN, DATE_MAX, WED. lia.
  - unfold DATE_MIN, WED. lia.
Defined.

(** X2: an absent, empty or unrecognized keyword, that is one whose
    lower-case form is no key of RANGE_DAYS, is treated exactly as 3m. *)
Theorem compute_window_endpoints_default (k : option string) (d : date)
    (Hk : forall n, ~ In (lower (str_or k EmptyString), n) RANGE_DAYS) :
  compute_window_endpoints k d = compute_window_endpoints (Some "3m") d.
Proof.
  assert (H1d : str_eqb (lower (str_or k EmptyString)) "1d" = false).
  { unfold str_eqb. apply String.eqb_neq. intros E. apply (Hk 1).
    rewrite E. left. reflexivity. }
  rewrite (not_1d_falls_to_table k d H1d).
  change (compute_window_endpoints (Some "3m") d)
    with (rbind (date_sub_days d 90) (fun s => Ok (s, d))).
  assert (Hget : dict_get RANGE_DAYS (lower (str_or k "3m")) 90 = 90).
  { destruct k as [[|c r]|]; try reflexivity.
    apply dict_get_default. exact Hk. }
  rewrite Hget. reflexivity.
Qed.

Lemma compute_window_endpoints_default_witness :
  compute_window_endpoints (Some "xyz") WED = Ok (WED - 90, WED)
  /\ compute_window_endpoints None WED = Ok (WED - 90, WED).
Proof.
  split.
  - rewrite (compute_window_endpoints_default (Some "xyz") WED); [reflexivity|].
    intros n H. cbn in H.
    repeat (destruct H as [H | H]; [discriminate H|]). exact H.
  - rewrite (compute_window_endpoints_default None WED); [reflexivity|].
    intros n H. cbn in H.
    repeat (destruct H as [H | H]; [discriminate H|]). exact H.
Defined.

(** What a successful call of [compute_window_endpoints] returns. *)
Lemma compute_window_endpoints_inv (k : option string) (d s e : date) :
  valid_date d ->
  compute_window_endpoints k d = Ok (s, e) ->
  valid_date s /\ valid_date e /\ d - 2 <= e <= d
  /\ ((str_eqb (lower (str_or k EmptyString)) "1d" = true /\ e - s = 1)
      \/ (str_eqb (lower (str_or k EmptyString)) "1d" = false
          /\ In (e - s) [7; 30; 90; 180; 365; 730])).
Proof.
  intros Hd H. unfold compute_window_endpoints in H.
  destruct (str_eqb (lower (str_or k EmptyString)) "1d") eqn:H1d.
  - pose proof (get_last_trading_day_value d Hd) as Hr.
    pose proof (weekend_not_first d Hd) as Hw.
    remember (if weekday d =? 5 then d - 1
              else if weekday d =? 6 then d - 2 else d) as r eqn:Er.
    assert (Hrange : d - 2 <= r <= d /\ valid_date r).
    { rewrite Er. unfold valid_date, DATE_MIN in *. by_cases; lia. }
    destruct Hrange as [Hrange Hvr]. clear Er.
    rewrite Hr in H. cbn [rbind] in H. unfold date_sub_days in H.
    destruct (date_add_days r (- (1))) as [s0|] eqn:Hs; [|discriminate].
    cbn [rbind] in H. injection H as <- <-.
    apply date_add_days_inv in Hs as [-> Hvs].
    split; [exact Hvs|]. split; [exact Hvr|]. split; [lia|].
    left. split; [reflexivity | lia].
  - pose proof (table_offset_cases k H1d) as Hoff.
    set (n := dict_get RANGE_DAYS (lower (str_or k "3m")) 90) in *.
    unfold date_sub_days in H.
    destruct (date_add_days d (- n)) as [s0|] eqn:Hs; [|discriminate].
    cbn [rbind] in H. injection H as <- <-.
    apply date_add_days_inv in Hs as [-> Hvs].
    split; [exact Hvs|]. split; [exact Hd|]. split; [lia|].
    right. split; [reflexivity|].
    replace (d - (d + - n)) with n by lia. exact Hoff.
Qed.

(** X3: a window returned by [compute_window_endpoints] for a valid
    reference date is never empty or inverted: both ends are dates, the
    start is before the end, the end is the reference date or at most two
    days before it, and the length in days is one of the values of
    RANGE_DAYS, so the fetcher's span is that length. *)
Theorem compute_window_endpoints_shape (k : option string) (d s e : date)
    (Hd : valid_date d) (H : compute_window_endpoints k d = Ok (s, e)) :
  valid_date s /\ valid_date e /\ s < e /\ d - 2 <= e <= d
  /\ In (e - s) (map snd RANGE_DAYS)
  /\ span_of s e = e - s.
Proof.
  destruct (compute_window_endpoints_inv k d s e Hd H)
    as (Hs & He & Hrange & Hlen).
  assert (Hin : In (e - s) [1; 7; 30; 90; 180; 365; 730]).
  { destruct Hlen as [[_ ->] | [_ Hl]]; [left; reflexivity | right; exact Hl]. }
  split; [exact Hs|]. split; [exact He|].
  assert (Hpos : s < e) by (cbn in Hin; lia).
  split; [exact Hpos|]. split; [exact Hrange|]. split; [exact Hin|].
  unfold span_of, days_between. destruct (Z.eqb_spec (e - s) 0); [lia | reflexivity].
Qed.

Lemma compute_window_endpoints_shape_witness :
  valid_date SAT
  /\ compute_window_endpoints (Some "6M") SAT = Ok (SAT - 180, SAT)
  /\ span_of (SAT - 180) SAT = 180.
Proof.
  assert (Hd : valid_date SAT)
    by (unfold valid_date, DATE_MIN, DATE_MAX, SAT; lia).
  split; [exact Hd|]. split; [reflexivity|].
  destruct (compute_window_endpoints_shape (Some "6M") SAT (SAT - 180) SAT Hd eq_refl)
    as (_ & _ & _ & _ & _ & Hspan).
  exact Hspan.
Defined.

(** X4: for a valid reference date [compute_window_endpoints] fails only
    with OverflowError, and only within the first 730 days of the
    calendar, where the start of the window would fall before
    0001-01-01; from day 731 on it always returns a window. *)
Theorem compute_window_endpoints_overflow (k : option string) (d : date)
    (Hd : valid_date d) :
  (forall x, compute_window_endpoints k d = Raise x ->
             x = OverflowError /\ d <= 730)
  /\ (730 < d -> exists s e, compute_window_endpoints k d = Ok (s, e)).
Proof.
  assert (Hraise : forall x, compute_window_endpoints k d = Raise x ->
                             x = OverflowError /\ d <= 730).
  { intros x H. unfold compute_window_endpoints in H.
    destruct (str_eqb (lower (str_or k EmptyString)) "1d") eqn:H1d.
    - rewrite (get_last_trading_day_value d Hd) in H. cbn [rbind] in H.
      unfold date_sub_days in H.
      match type of H with
      | rbind (date_add_days ?r ?n) _ = _ =>
          destruct (date_add_days r n) eqn:Hs; [discriminate|]
      end.
      cbn [rbind] in H. injection H as ->.
      apply date_add_days_raise in Hs as [-> Hs]. split; [reflexivity|].
      unfold valid_date, DATE_MIN, DATE_MAX in *. revert Hs. by_cases; lia.
    - pose proof (table_offset_cases k H1d) as Hoff.
      remember (dict_get RANGE_DAYS (lower (str_or k "3m")) 90) as n eqn:En.
      clear En. unfold date_sub_days in H.
      destruct (date_add_days d (- n)) eqn:Hs; [discriminate|].
      cbn [rbind] in H. injection H as ->.
      apply date_add_days_raise in Hs as [-> Hs]. split; [reflexivity|].
      unfold valid_date, DATE_MIN, DATE_MAX in *. cbn in Hoff. lia. }
  split; [exact Hraise|].
  intros Hbig. destruct (compute_window_endpoints k d) as [[s e]|x] eqn:H.
  - exists s, e. reflexivity.
  - destruct (Hraise x eq_refl) as [_ Hle]. lia.
Qed.

Lemma compute_window_endpoints_overflow_witness :
  valid_date 365
  /\ compute_window_endpoints (Some "2y") 365 = Raise OverflowError
  /\ exists s e, compute_window_endpoints (Some "2y") WED = Ok (s, e).
Proof.
  assert (H1 : valid_date 365) by (unfold valid_date, DATE_MIN, DATE_MAX; lia).
  assert (H2 : valid_date WED)
    by (unfold valid_date, DATE_MIN, DATE_MAX, WED; lia).
  split; [exact H1|]. split; [reflexivity|].
  destruct (compute_window_endpoints_overflow (Some "2y") WED H2) as [_ H].
  apply H. unfold WED. lia.
Defined.

(** X5: the planner and [pick_interval] composed: for a window returned
    by [compute_window_endpoints] on a valid date, its span and the
    interval the fetcher picks for it form one of seven pairs (1 day at
    5m, 7 days at 30m, 30 days at 60m, and 90, 180, 365, 730 days at 1d),
    and the span is one day, the only case in which the fast path
    applies, exactly when the keyword is 1d. *)
Theorem planned_window_interval (k : option string) (d s e : date)
    (Hd : valid_date d) (H : compute_window_endpoints k d = Ok (s, e)) :
  In (span_of s e, pick_interval (span_of s e))
     [(1, I5m); (7, I30m); (30, I60m); (90, I1d); (180, I1d); (365, I1d);
      (730, I1d)]
  /\ (span_of s e = 1
      <-> str_eqb (lower (str_or k EmptyString)) "1d" = true).
Proof.
  destruct (compute_window_endpoints_inv k d s e Hd H) as (_ & _ & _ & Hlen).
  assert (Hspan : span_of s e = e - s).
  { unfold span_of, days_between.
    destruct (Z.eqb_spec (e - s) 0) as [E|]; [|reflexivity].
    exfalso. destruct Hlen as [[_ Hl] | [_ Hl]]; [lia | cbn in Hl; lia]. }
  rewrite Hspan. destruct Hlen as [[H1d ->] | [H1d Hl]].
  - split; [left; reflexivity|]. split; auto.
  - split.
    + cbn in Hl.
      repeat (destruct Hl as [<- | Hl]; [cbn; tauto|]). contradiction.
    + split; [intros E; cbn in Hl; lia | congruence].
Qed.

Lemma planned_window_interval_witness :
  valid_date WED
  /\ compute_window_endpoints (Some "1m") WED = Ok (WED - 30, WED)
  /\ pick_interval (span_of (WED - 30) WED) = I60m
  /\ span_of (WED - 30) WED <> 1.
Proof.
  assert (Hd : valid_date WED)
    by (unfold valid_date, DATE_MIN, DATE_MAX, WED; lia).
  split; [exact Hd|]. split; [reflexivity|].
  destruct (planned_window_interval (Some "1m") WED (WED - 30) WED Hd eq_refl)
    as [_ Hiff].
  split; [reflexivity|]. intros E. apply Hiff in E. discriminate E.
Defined.

(** X6: [pick_interval] never picks finer bars for a longer window; it
    picks daily bars exactly for windows of more than 60 days, and with
    an intraday interval the window never spans more than 1440 bars. *)
Theorem pick_interval_monotone (days1 days2 : Z) :
  (days1 <= days2 ->
   bar_minutes (pick_interval days1) <= bar_minutes (pick_interval days2))
  /\ (pick_interval days1 = I1d <-> 60 < days1)
  /\ (days1 <= 60 ->
      days1 * 1440 <= 1440 * bar_minutes (pick_interval days1)).
Proof.
  unfold pick_interval. repeat split; intros;
    revert H; by_cases; cbn; intros; try lia; try discriminate; try reflexivity.
Qed.

Lemma pick_interval_monotone_witness :
  bar_minutes (pick_interval 7) <= bar_minutes (pick_interval 30).
Proof.
  destruct (pick_interval_monotone 7 30) as [H _]. apply H. lia.
Defined.

(** X20: the range keyword is matched without regard to letter case:
    upper-casing or lower-casing it never changes the window. *)
Theorem compute_window_endpoints_case_insensitive (k : string) (d : date) :
  compute_window_endpoints (Some (upper k)) d = compute_window_endpoints (Some k) d
  /\ compute_window_endpoints (Some (lower k)) d
     = compute_window_endpoints (Some k) d.
Proof.
  unfold compute_window_endpoints, upper. split.
  - rewrite !(lower_str_or_map ascii_upper k _ lower_upper). reflexivity.
  - unfold lower at 1 4.
    rewrite !(lower_str_or_map ascii_lower k _ lower_idempotent). reflexivity.
Qed.

(** X21: [get_last_trading_day] returns the most recent weekday: no day
    after its result and up to the given date is a weekday; and it is
    monotone, a later date never giving an earlier trading day. *)
Theorem get_last_trading_day_most_recent (d r : date)
    (Hd : valid_date d) (H : get_last_trading_day d = Ok r) :
  (forall x, r < x <= d -> 5 <= weekday x <= 6)
  /\ (forall d' r', valid_date d' -> d <= d' ->
                    get_last_trading_day d' = Ok r' -> r <= r').
Proof.
  rewrite (get_last_trading_day_value d Hd) in H. injection H as <-.
  split.
  - intros x Hx. pose proof (weekday_range x) as Hrx. split; [|lia].
    revert Hx. unfold weekday in *. by_cases; intros;
      Z.div_mod_to_equations; lia.
  - intros d' r' Hd' Hle H'.
    rewrite (get_last_trading_day_value d' Hd') in H'. injection H' as <-.
    unfold weekday. by_cases; Z.div_mod_to_equations; lia.
Qed.

Lemma get_last_trading_day_most_recent_witness :
  valid_date (SAT + 1)
  /\ get_last_trading_day (SAT + 1) = Ok (SAT - 1)
  /\ 5 <= weekday SAT <= 6.
Proof.
  assert (Hd : valid_date (SAT + 1))
    by (unfold valid_date, DATE_MIN, DATE_MAX, SAT; lia).
  split; [exact Hd|]. split; [reflexivity|].
  destruct (get_last_trading_day_most_recent (SAT + 1) (SAT - 1) Hd eq_refl)
    as [H _].
  apply H. lia.
Defined.

(** X19: a key the quick-range buttons set is always a lower-case key of
    RANGE_DAYS and a value of the range dropdown, so the planner never
    falls back to its default for it; any other trigger leaves the
    dropdown unchanged.  The dropdown offers exactly the keys of
    RANGE_DAYS. *)
Theorem set_quick_range_recognized (trigger : option string) :
  (forall k, set_quick_range trigger = Some k ->
             (exists n, In (k, n) RANGE_DAYS)
             /\ lower k = k
             /\ In k (map snd RANGE_OPTIONS)
             /\ trigger = Some ("btn-" +++ k))
  /\ ((forall k, trigger <> Some ("btn-" +++ k)) -> set_quick_range trigger = None)
  /\ map snd RANGE_OPTIONS = map fst RANGE_DAYS.
Proof.
  split; [|split; [|reflexivity]].
  - intros k H. destruct trigger as [id|]; [|discriminate]. cbn [set_quick_range] in H.
    match type of H with
    | dict_get ?dct _ _ = _ =>
        destruct (dict_get_cases dct id None) as [Hin | Hnone];
          [rewrite H in Hin | congruence]
    end.
    cbn in Hin.
    repeat (destruct Hin as [Hin | Hin];
            [injection Hin as <- <-; cbn; repeat split; eauto 10|]).
    contradiction.
  - intros Hno. destruct trigger as [id|]; [|reflexivity]. cbn [set_quick_range].
    apply dict_get_default. intros v Hin. cbn in Hin.
    repeat (destruct Hin as [Hin | Hin];
            [injection Hin as <- _;
             first [apply (Hno "1d"); reflexivity | apply (Hno "1w"); reflexivity
                   | apply (Hno "1m"); reflexivity | apply (Hno "1y"); reflexivity]|]).
    contradiction.
Qed.

Lemma set_quick_range_recognized_witness :
  set_quick_range (Some "btn-1y") = Some "1y"
  /\ (exists n, In ("1y", n) RANGE_DAYS)
  /\ set_quick_range (Some "update-btn") = None.
Proof.
  destruct (set_quick_range_recognized (Some "btn-1y")) as (H & _).
  destruct (H "1y" eq_refl) as (Hn & _).
  split; [reflexivity|]. split; [exact Hn|].
  destruct (set_quick_range_recognized (Some "update-btn")) as (_ & H0 & _).
  apply H0. intros k E. injection E as E. discriminate E.
Defined.

End PlannerMore.

(* ------------------------------------------------------------------ *)
(** ** Normalization, continued *)

Module NormalizationMore.

Section Lemmas.
Context {price : Type}.
Implicit Types (s : Series price) (df : DataFrame price)
  (raw : option (DataFrame price)).

Lemma position_str_where (labels : list string) :
  position str_eqb "Close" labels
  = position_where (fun l => str_eqb l "Close") labels.
Proof.
  induction labels as [|l labels IH]; cbn; [reflexivity|].
  destruct (str_eqb l "Close"); [reflexivity | rewrite IH; reflexivity].
Qed.

Lemma position_where_none {A} (f : A -> bool) (l : list A) :
  filter f l = [] -> position_where f l = None.
Proof.
  induction l as [|a l IH]; cbn; [reflexivity|].
  destruct (f a); [discriminate|]. intros H. rewrite IH; auto.
Qed.

(** The first label whose field is Close is found again at its own
    place. *)
Lemma position_first_hit (labels : list (string * string)) c0 rest :
  filter (fun c => str_eqb (fst c) "Close") labels = c0 :: rest ->
  position label2_eqb c0 labels
  = position_where (fun c => str_eqb (fst c) "Close") labels.
Proof.
  revert c0 rest. induction labels as [|a labels IH]; intros c0 rest; cbn;
    [discriminate|].
  destruct (str_eqb (fst a) "Close") eqn:Ha.
  - intros [= <- _]. unfold label2_eqb, str_eqb. rewrite !String.eqb_refl.
    reflexivity.
  - intros H.
    assert (Hc0 : str_eqb (fst c0) "Close" = true).
    { assert (Hin : In c0 (filter (fun c => str_eqb (fst c) "Close") labels))
        by (rewrite H; left; reflexivity).
      apply filter_In in Hin. apply Hin. }
    assert (Hne : label2_eqb a c0 = false).
    { unfold label2_eqb, str_eqb in *.
      destruct (String.eqb_spec (fst a) (fst c0)) as [E|]; [|reflexivity].
      rewrite E in Ha. congruence. }
    rewrite Hne, (IH _ _ H). reflexivity.
Qed.

(** The rows of a normalization, whatever the table. *)
Lemma to_close_series_rows interval raw :
  s_rows (to_close_series interval raw) =
  match raw with
  | None => []
  | Some df =>
      match close_position (df_columns df) with
      | None => []
      | Some j =>
          map (fun r => (floor_to (granularity interval) (fst r), snd r))
            (filter (fun r => negb (is_missing (snd r)))
               (map (fun r => (fst r, nth j (snd r) None)) (df_rows df)))
      end
  end.
Proof.
  unfold to_close_series. destruct raw as [df|]; [|reflexivity].
  destruct (df_rows df) as [|r0 rows] eqn:Hrows.
  - cbn. destruct (close_position (df_columns df)); reflexivity.
  - cbn [List.length Nat.eqb]. rewrite <- Hrows.
    assert (Hcol : forall j nm,
               s_rows (let s := dropna (column_at df j nm) in
                       if is_empty s then s
                       else mkSeries (NameStr "Close")
                              (s_tz (map_index (floor_to (granularity interval))
                                       (mkSeries (s_name s) None (s_rows s))))
                              (s_rows (map_index (floor_to (granularity interval))
                                         (mkSeries (s_name s) None (s_rows s)))))
               = map (fun r => (floor_to (granularity interval) (fst r), snd r))
                   (filter (fun r => negb (is_missing (snd r)))
                      (map (fun r => (fst r, nth j (snd r) None)) (df_rows df)))).
    { intros j nm. cbv zeta.
      destruct (is_empty (dropna (column_at df j nm))) eqn:He; [|reflexivity].
      apply Normalization.is_empty_rows in He. rewrite He.
      unfold dropna, column_at in He. cbn [s_rows] in He. rewrite He.
      reflexivity. }
    destruct (df_columns df) as [labels | labels]; cbn [close_position].
    + unfold get_close. rewrite position_str_where.
      destruct (position_where _ labels) as [j|]; [apply Hcol | reflexivity].
    + destruct (filter (fun c => str_eqb (fst c) "Close") labels)
        as [|c0 rest] eqn:Hf.
      * rewrite (position_where_none _ _ Hf). reflexivity.
      * rewrite (position_first_hit _ _ _ Hf).
        destruct (position_where _ labels) as [j|]; [apply Hcol | reflexivity].
Qed.

Lemma filter_idempotent {A} (f : A -> bool) (l : list A) :
  filter f (filter f l) = filter f l.
Proof.
  induction l as [|a l IH]; cbn; [reflexivity|].
  destruct (f a) eqn:Ha; cbn; [rewrite Ha, IH|]; auto.
Qed.

Lemma nth_some_in {A} (l : list (option A)) (j : nat) (v : A) :
  nth j l None = Some v -> In (Some v) l.
Proof.
  intros H. destruct (Nat.lt_ge_cases j (List.length l)) as [Hlt | Hge].
  - rewrite <- H. apply nth_In. exact Hlt.
  - rewrite nth_overflow in H by exact Hge. discriminate.
Qed.

(** Every row of a normalization is a row of the table: its timestamp
    put on the grid, its close one of the cells of that row. *)
Lemma to_close_series_row_origin interval df r :
  In r (s_rows (to_close_series interval (Some df))) ->
  exists row v,
    In row (df_rows df)
    /\ fst r = floor_to (granularity interval) (fst row)
    /\ snd r = Some v
    /\ In (Some v) (snd row).
Proof.
  rewrite to_close_series_rows.
  destruct (close_position (df_columns df)) as [j|]; [|intros []].
  intros Hin. apply in_map_iff in Hin as (r1 & <- & Hr1).
  apply filter_In in Hr1 as [Hr1 Hm].
  apply in_map_iff in Hr1 as (row & <- & Hrow).
  cbn [fst snd] in *.
  destruct (nth j (snd row) None) as [v|] eqn:Hv; [|discriminate].
  exists row, v. repeat split; auto. apply (nth_some_in _ j). exact Hv.
Qed.

End Lemmas.

(** X7: when there is nothing to read, that is no table, a table without
    rows, or a table without a column labelled Close, [to_close_series]
    returns the fresh empty series, unlabelled and naive. *)
Theorem to_close_series_without_close {price} (interval : Interval)
    (raw : option (DataFrame price))
    (H : match raw with
         | None => True
         | Some df => df_rows df = [] \/ close_position (df_columns df) = None
         end) :
  to_close_series interval raw = empty_series.
Proof.
  unfold to_close_series. destruct raw as [df|]; [|reflexivity].
  destruct (df_rows df) as [|r0 rows] eqn:Hrows; [reflexivity|].
  destruct H as [H | H]; [discriminate|].
  cbn [List.length Nat.eqb].
  destruct (df_columns df) as [labels | labels]; cbn [close_position] in H.
  - unfold get_close. rewrite position_str_where, H. reflexivity.
  - destruct (filter (fun c => str_eqb (fst c) "Close") labels)
      as [|c0 rest] eqn:Hf; [reflexivity|].
    rewrite (position_first_hit _ _ _ Hf), H. reflexivity.
Qed.

Lemma to_close_series_without_close_witness :
  to_close_series I1d
    (Some (mkFrame (Multi [("Open", "AAPL"); ("AAPL", "Close")]) None
             [(Timestamp_of_date MON, [Some 18500; Some 18600])]))
  = @empty_series Z.
Proof.
  apply (to_close_series_without_close I1d
           (Some (mkFrame (Multi [("Open", "AAPL"); ("AAPL", "Close")]) None
                    [(Timestamp_of_date MON, [Some 18500; Some 18600])]))).
  right. reflexivity.
Defined.

Lemma position_where_nth {A} (f : A -> bool) (l : list A) (j : nat) :
  position_where f l = Some j -> exists x, nth_error l j = Some x /\ f x = true.
Proof.
  revert j. induction l as [|a l IH]; intros j; cbn; [discriminate|].
  destruct (f a) eqn:Ha.
  - intros [= <-]. exists a. auto.
  - destruct (position_where f l) as [n|]; [|discriminate].
    intros [= <-]. exact (IH n eq_refl).
Qed.

Lemma distinct_nth {A} (eqb : A -> A -> bool) (l : list A) :
  (forall a, eqb a a = true) ->
  distinct eqb l = true ->
  forall j k c, nth_error l j = Some c -> nth_error l k = Some c -> j = k.
Proof.
  intros Hrefl. induction l as [|a l IH]; intros Hd j k c Hj Hk.
  - destruct j; discriminate Hj.
  - cbn [distinct] in Hd. apply andb_prop in Hd as [Ha Hd].
    assert (Hnot : forall n, nth_error l n = Some a -> False).
    { intros n Hn. apply nth_error_In in Hn.
      assert (He : existsb (eqb a) l = true)
        by (apply existsb_exists; exists a; auto).
      rewrite He in Ha. discriminate Ha. }
    destruct j as [|j], k as [|k]; cbn in Hj, Hk.
    + reflexivity.
    + injection Hj as <-. destruct (Hnot _ Hk).
    + injection Hk as <-. destruct (Hnot _ Hj).
    + f_equal. exact (IH Hd j k c Hj Hk).
Qed.

Lemma label2_eqb_refl (a : string * string) : label2_eqb a a = true.
Proof. unfold label2_eqb, str_eqb. rewrite !String.eqb_refl. reflexivity. Qed.

(** X8: on a table whose column labels are unique, [to_close_series]
    reads one column only: the first one labelled Close (under
    (field, symbol) labels the first whose field is Close, whatever its
    symbol), which is the only column that carries its label.  Its rows are
    the rows of the table whose cell in that column is not missing, in
    table order, each timestamp floored to the grid of the interval; so it
    never has more rows than the table. *)
Theorem to_close_series_reads_close_column {price} (interval : Interval)
    (df : DataFrame price) (j : nat)
    (Hu : is_unique (df_columns df) = true)
    (Hj : close_position (df_columns df) = Some j) :
  (exists c, label_at (df_columns df) j = Some c
             /\ fst c = "Close"
             /\ forall k, label_at (df_columns df) k = Some c -> k = j)
  /\ s_rows (to_close_series interval (Some df)) =
     map (fun r => (floor_to (granularity interval) (fst r), snd r))
       (filter (fun r => negb (is_missing (snd r)))
          (map (fun r => (fst r, nth j (snd r) None)) (df_rows df)))
  /\ len (to_close_series interval (Some df))
     <= Z.of_nat (List.length (df_rows df)).
Proof.
  pose proof (to_close_series_rows interval (Some df)) as Hrows.
  cbv iota beta in Hrows. rewrite Hj in Hrows.
  split; [|split; [exact Hrows|]].
  - destruct (df_columns df) as [labels | labels];
      cbn [close_position is_unique label_at] in *;
      apply position_where_nth in Hj as (x & Hx & Hclose);
      unfold str_eqb in Hclose; apply String.eqb_eq in Hclose.
    + subst x. exists ("Close", EmptyString). rewrite Hx.
      split; [reflexivity|]. split; [reflexivity|].
      intros k Hk. destruct (nth_error labels k) as [l|] eqn:Hl; [|discriminate].
      cbn in Hk. injection Hk as ->.
      apply (distinct_nth str_eqb labels) with (c := "Close"); auto.
      intros a. apply String.eqb_refl.
    + exists x. split; [exact Hx|]. split; [exact Hclose|].
      intros k Hk.
      apply (distinct_nth label2_eqb labels label2_eqb_refl Hu _ _ x); auto.
  - unfold len. rewrite Hrows, length_map.
    apply inj_le. etransitivity; [apply filter_length_le|].
    rewrite length_map. apply le_n.
Qed.

Lemma to_close_series_reads_close_column_witness :
  is_unique (df_columns two_sessions) = true
  /\ close_position (df_columns two_sessions) = Some 1%nat
  /\ map snd (s_rows (to_close_series I5m (Some two_sessions)))
     = [Some 18525; Some 18540; Some 18612; Some 18633]
  /\ len (to_close_series I5m (Some two_sessions)) <= 5.
Proof.
  split; [reflexivity|]. split; [reflexivity|].
  destruct (to_close_series_reads_close_column I5m two_sessions 1 eq_refl eq_refl)
    as (_ & Hrows & Hlen).
  split; [rewrite Hrows; reflexivity | exact Hlen].
Defined.

(** X13: restricting to the last session is idempotent, and what it
    keeps lies on a single calendar day. *)
Theorem last_session_only_idempotent {price} (s : Series price) :
  last_session_only (last_session_only s) = last_session_only s
  /\ forall t u, In t (index_of (last_session_only s)) ->
                 In u (index_of (last_session_only s)) ->
                 floor_to DAY_NS t = floor_to DAY_NS u.
Proof.
  set (m := index_max (map (floor_to DAY_NS) (index_of s))).
  assert (Hday : forall t, In t (index_of (last_session_only s)) ->
                           floor_to DAY_NS t = m).
  { intros t Ht. unfold index_of in Ht. apply in_map_iff in Ht as (r & <- & Hr).
    apply Fetcher.last_session_rows in Hr. apply Hr. }
  split; [|intros t u Ht Hu; rewrite (Hday t Ht), (Hday u Hu); reflexivity].
  destruct (is_empty s) eqn:He.
  - apply Normalization.is_empty_rows in He.
    unfold last_session_only, select, index_of. cbn [s_rows s_name s_tz].
    rewrite He. reflexivity.
  - pose proof (Fetcher.last_session_nonempty s He) as Hne.
    assert (Hidx : map (floor_to DAY_NS) (index_of (last_session_only s)) <> []).
    { apply Normalization.is_empty_false_rows in Hne. unfold index_of.
      intros H. apply map_eq_nil in H. apply map_eq_nil in H. contradiction. }
    destruct (Fetcher.index_max_spec _ Hidx) as [Hin _].
    apply in_map_iff in Hin as (t & Ht & Hin).
    rewrite (Hday t Hin) in Ht.
    unfold last_session_only at 1. rewrite <- Ht. fold m.
    unfold last_session_only, select. cbn [s_rows s_name s_tz]. fold m.
    rewrite filter_idempotent. reflexivity.
Qed.

End NormalizationMore.

(* ------------------------------------------------------------------ *)
(** ** Resilient fetcher, continued *)

Module FetcherMore.
Import Fetcher.

Section Lemmas.
Context {price P : Type}.
Variable respond : P -> Request -> Outcome price * P.
Implicit Types (w : World price P) (s : Series price) (st : @Strategy price).

(** The calls a list of strategies makes: the requests of the applicable
    strategies in order, up to and including the one that succeeds or
    whose call raises an exception that is not caught. *)
Lemma first_success_trace interval sts otherwise w :
  exists tr w1,
    w_trace w1 = w_trace w ++ tr
    /\ ((exists s pre st post raw,
           sts = pre ++ st :: post
           /\ first_success respond interval sts otherwise w = (Ok s, w1)
           /\ is_empty s = false
           /\ st_applies st = true
           /\ map fst tr = map st_request (filter st_applies pre) ++ [st_request st]
           /\ In (st_request st, Ok raw) tr
           /\ is_empty (to_close_series interval raw) = false
           /\ s = st_restrict st (to_close_series interval raw))
        \/ (first_success respond interval sts otherwise w = otherwise w1
            /\ map fst tr = map st_request (filter st_applies sts))
        \/ (exists e pre st post,
              sts = pre ++ st :: post
              /\ first_success respond interval sts otherwise w = (Raise e, w1)
              /\ exn_is_Exception e = false
              /\ st_applies st = true
              /\ map fst tr
                 = map st_request (filter st_applies pre) ++ [st_request st])).
Proof.
  revert w. induction sts as [|st rest IH]; intros w.
  - exists [], w. rewrite app_nil_r. split; [reflexivity|]. right. left. auto.
  - assert (Hlater : forall w2 c,
               st_applies st = true ->
               fst c = st_request st ->
               w_trace w2 = w_trace w ++ [c] ->
               first_success respond interval (st :: rest) otherwise w
               = first_success respond interval rest otherwise w2 ->
               exists tr w1,
                 w_trace w1 = w_trace w ++ tr
                 /\ ((exists s pre st' post raw,
                        st :: rest = pre ++ st' :: post
                        /\ first_success respond interval (st :: rest) otherwise w
                           = (Ok s, w1)
                        /\ is_empty s = false
                        /\ st_applies st' = true
                        /\ map fst tr
                           = map st_request (filter st_applies pre)
                             ++ [st_request st']
                        /\ In (st_request st', Ok raw) tr
                        /\ is_empty (to_close_series interval raw) = false
                        /\ s = st_restrict st' (to_close_series interval raw))
                     \/ (first_success respond interval (st :: rest) otherwise w
                         = otherwise w1
                         /\ map fst tr
                            = map st_request (filter st_applies (st :: rest)))
                     \/ (exists e pre st' post,
                           st :: rest = pre ++ st' :: post
                           /\ first_success respond interval (st :: rest) otherwise w
                              = (Raise e, w1)
                           /\ exn_is_Exception e = false
                           /\ st_applies st' = true
                           /\ map fst tr
                              = map st_request (filter st_applies pre)
                                ++ [st_request st']))).
    { intros w2 c Happ Hc Ht2 Heq. rewrite Heq.
      destruct (IH w2) as (tr & w1 & Ht & Hcase).
      exists (c :: tr), w1.
      split; [rewrite Ht, Ht2, <- app_assoc; reflexivity|].
      destruct Hcase
        as [(s & pre & st' & post & raw & H1 & H2 & H3 & H4 & H5 & H6 & H7 & H8)
           | [(H1 & H2) | (e & pre & st' & post & H1 & H2 & H3 & H4 & H5)]].
      - left. exists s, (st :: pre), st', post, raw.
        split; [rewrite H1; reflexivity|]. split; [exact H2|].
        split; [exact H3|]. split; [exact H4|].
        split; [cbn [filter map]; rewrite Happ, Hc, H5; reflexivity|].
        split; [right; exact H6|]. split; assumption.
      - right. left. split; [exact H1|].
        cbn [filter map]. rewrite Happ, Hc, H2. reflexivity.
      - right. right. exists e, (st :: pre), st', post.
        split; [rewrite H1; reflexivity|]. split; [exact H2|].
        split; [exact H3|]. split; [exact H4|].
        cbn [filter map]. rewrite Happ, Hc, H5. reflexivity. }
    destruct (run_strategy_cases respond interval st w)
      as [(Ha & Hrun)
         | [(e & p' & Ha & _ & _ & Hrun)
           | [(raw & p' & Ha & _ & Hrun) | (e & p' & Ha & _ & Hexc & Hrun)]]].
    + rewrite (first_success_step _ _ _ rest otherwise _ _ _ Hrun).
      destruct (IH w) as (tr & w1 & Ht & Hcase).
      exists tr, w1. split; [exact Ht|].
      destruct Hcase
        as [(s & pre & st' & post & raw & H1 & H2 & H3 & H4 & H5 & H6 & H7 & H8)
           | [(H1 & H2) | (e & pre & st' & post & H1 & H2 & H3 & H4 & H5)]].
      * left. exists s, (st :: pre), st', post, raw.
        split; [rewrite H1; reflexivity|]. split; [exact H2|].
        split; [exact H3|]. split; [exact H4|].
        split; [cbn [filter]; rewrite Ha; exact H5|].
        split; [exact H6|]. split; assumption.
      * right. left. split; [exact H1|]. cbn [filter]. rewrite Ha. exact H2.
      * right. right. exists e, (st :: pre), st', post.
        split; [rewrite H1; reflexivity|]. split; [exact H2|].
        split; [exact H3|]. split; [exact H4|].
        cbn [filter]. rewrite Ha. exact H5.
    + eapply Hlater with (c := (st_request st, Raise e));
        [exact Ha | reflexivity | |
         apply (first_success_step _ _ _ rest otherwise _ _ _ Hrun)].
      reflexivity.
    + cbv zeta in Hrun.
      destruct (is_empty (to_close_series interval raw)) eqn:He1;
        [|destruct (is_empty (st_restrict st (to_close_series interval raw))) eqn:He2];
        cbn [negb andb] in Hrun.
      * eapply Hlater with (c := (st_request st, Ok raw));
          [exact Ha | reflexivity | |
           apply (first_success_step _ _ _ rest otherwise _ _ _ Hrun)].
        reflexivity.
      * eapply Hlater with (c := (st_request st, Ok raw));
          [exact Ha | reflexivity | |
           apply (first_success_step _ _ _ rest otherwise _ _ _ Hrun)].
        reflexivity.
      * rewrite (first_success_step _ _ _ rest otherwise _ _ _ Hrun).
        exists [(st_request st, Ok raw)],
          (mkWorld p' (w_trace w ++ [(st_request st, Ok raw)]) (w_stderr w)).
        split; [reflexivity|]. left.
        exists (st_restrict st (to_close_series interval raw)), [], st, rest, raw.
        repeat split; auto. left. reflexivity.
    + rewrite (first_success_raise _ _ _ rest otherwise _ _ _ Hrun).
      exists [(st_request st, Raise e)],
        (mkWorld p' (w_trace w ++ [(st_request st, Raise e)]) (w_stderr w)).
      split; [reflexivity|]. right. right.
      exists e, [], st, rest. repeat split; auto.
Qed.

(** All the ways a call of [fetch_history] can end, with the calls it
    made. *)
Lemma fetch_history_calls ticker start end_ w :
  exists tr w' out pre post,
    fetch_history respond ticker start end_ w = (out, w')
    /\ w_trace w' = w_trace w ++ tr
    /\ fast_path ticker start end_ :: windowed ticker start end_ (end_ + 1)
       = pre ++ post
    /\ map fst tr = map st_request (filter st_applies pre)
    /\ match out with
       | Ok s =>
           (is_empty s = true /\ s = empty_series /\ post = []
            /\ date_add_days end_ 1 = Ok (end_ + 1))
           \/ (is_empty s = false
               /\ exists st raw pre',
                    pre = pre' ++ [st]
                    /\ st_applies st = true
                    /\ In (st_request st, Ok raw) tr
                    /\ is_empty (to_close_series
                                   (pick_interval (span_of start end_)) raw) = false
                    /\ s = st_restrict st
                             (to_close_series
                                (pick_interval (span_of start end_)) raw))
       | Raise e =>
           (e = OverflowError
            /\ pre = [fast_path ticker start end_]
            /\ date_add_days end_ 1 = Raise OverflowError)
           \/ (exn_is_Exception e = false
               /\ exists st pre', pre = pre' ++ [st] /\ st_applies st = true)
       end.
Proof.
  rewrite fetch_history_unfold. unfold fetch_in_order. cbv zeta.
  set (interval := pick_interval (span_of start end_)).
  set (fast := @fast_path price ticker start end_).
  destruct (first_success_trace interval [fast]
              (end_inclusive <- lift (date_add_days end_ 1) ;;
               first_success respond interval
                 (windowed ticker start end_ end_inclusive)
                 (no_data ticker start end_)) w)
    as (tr1 & w1 & Ht1 &
        [(s & pre & st & post & raw & Hsts & Heq & Hne & Happ & Hmap & Hin & Hraw & Hs)
        | [(Heq & Hmap)
          | (e & pre & st & post & Hsts & Heq & Hexc & Happ & Hmap)]]);
    rewrite Heq; clear Heq.
  - assert (Hshape : pre = [] /\ st = fast /\ post = []).
    { destruct pre as [|a pre]; cbn in Hsts.
      - injection Hsts as <- <-. auto.
      - injection Hsts as _ Hnil. destruct pre; discriminate Hnil. }
    destruct Hshape as (-> & -> & ->). cbn [filter map app] in Hmap.
    exists tr1, w1, (Ok s), [fast], (windowed ticker start end_ (end_ + 1)).
    split; [reflexivity|]. split; [exact Ht1|]. split; [reflexivity|].
    split; [cbn [filter]; rewrite Happ; exact Hmap|].
    right. split; [exact Hne|]. exists fast, raw, []. repeat split; auto.
  - unfold bind at 1, lift.
    destruct (date_add_days end_ 1) as [e1|x] eqn:He1.
    + apply Planner.date_add_days_inv in He1 as He1'. destruct He1' as [-> _].
      destruct (first_success_trace interval
                  (windowed ticker start end_ (end_ + 1))
                  (no_data ticker start end_) w1)
        as (tr2 & w2 & Ht2 &
            [(s & pre & st & post & raw & Hsts & Heq & Hne & Happ & Hmap2 & Hin & Hraw & Hs)
            | [(Heq & Hmap2)
              | (e & pre & st & post & Hsts & Heq & Hexc & Happ & Hmap2)]]);
        rewrite Heq; clear Heq.
      * exists (tr1 ++ tr2), w2, (Ok s), (fast :: pre ++ [st]), post.
        split; [reflexivity|].
        split; [rewrite Ht2, Ht1, app_assoc; reflexivity|].
        split; [rewrite Hsts; cbn [app]; rewrite <- app_assoc; reflexivity|].
        split.
        { rewrite map_app, Hmap, Hmap2.
          change (fast :: pre ++ [st]) with ([fast] ++ pre ++ [st]).
          rewrite !filter_app, !map_app. cbn [filter]. rewrite Happ.
          reflexivity. }
        right. split; [exact Hne|]. exists st, raw, (fast :: pre).
        repeat split; auto. apply in_or_app. right. exact Hin.
      * unfold no_data, bind, eprint, ret.
        eexists (tr1 ++ tr2), _, (Ok empty_series),
          (fast :: windowed ticker start end_ (end_ + 1)), [].
        split; [reflexivity|]. cbn [w_trace].
        split; [rewrite Ht2, Ht1, app_assoc; reflexivity|].
        split; [rewrite app_nil_r; reflexivity|].
        split.
        { rewrite map_app, Hmap, Hmap2.
          change (fast :: windowed ticker start end_ (end_ + 1))
            with ([fast] ++ windowed ticker start end_ (end_ + 1)).
          rewrite filter_app, map_app. reflexivity. }
        left. repeat split; reflexivity.
      * exists (tr1 ++ tr2), w2, (Raise e), (fast :: pre ++ [st]), post.
        split; [reflexivity|].
        split; [rewrite Ht2, Ht1, app_assoc; reflexivity|].
        split; [rewrite Hsts; cbn [app]; rewrite <- app_assoc; reflexivity|].
        split.
        { rewrite map_app, Hmap, Hmap2.
          change (fast :: pre ++ [st]) with ([fast] ++ pre ++ [st]).
          rewrite !filter_app, !map_app. cbn [filter]. rewrite Happ.
          reflexivity. }
        right. split; [exact Hexc|]. exists st, (fast :: pre). auto.
    + apply PlannerMore.date_add_days_raise in He1 as He1'.
      destruct He1' as [-> _].
      exists tr1, w1, (Raise OverflowError), [fast],
        (windowed ticker start end_ (end_ + 1)).
      split; [reflexivity|]. split; [exact Ht1|]. split; [reflexivity|].
      split; [exact Hmap|]. left. repeat split; auto.
  - assert (Hshape : pre = [] /\ st = fast /\ post = []).
    { destruct pre as [|a pre]; cbn in Hsts.
      - injection Hsts as <- <-. auto.
      - injection Hsts as _ Hnil. destruct pre; discriminate Hnil. }
    destruct Hshape as (-> & -> & ->). cbn [filter map app] in Hmap.
    exists tr1, w1, (Raise e), [fast], (windowed ticker start end_ (end_ + 1)).
    split; [reflexivity|]. split; [exact Ht1|]. split; [reflexivity|].
    split; [cbn [filter]; rewrite Happ; exact Hmap|].
    right. split; [exact Hexc|]. exists fast, []. auto.
Qed.

(** The requests of the strategies that apply to a window. *)
Lemma applicable_requests ticker start end_ e1 :
  map st_request
    (filter st_applies
       (@fast_path price ticker start end_ :: windowed ticker start end_ e1))
  = (if span_of start end_ =? 1
     then [DownloadPeriod ticker "5d" (pick_interval (span_of start end_))]
     else [])
    ++ [DownloadRange ticker start e1 (pick_interval (span_of start end_));
        HistoryRange ticker start e1 (pick_interval (span_of start end_))]
    ++ (if interval_eqb (pick_interval (span_of start end_)) I1d then []
        else [DownloadPeriod ticker
                (if span_of start end_ <=? 7 then "7d" else "30d")
                (pick_interval (span_of start end_))]).
Proof.
  unfold fast_path, windowed. cbv zeta. cbn [filter map st_applies].
  destruct (Z.eqb_spec (span_of start end_) 1) as [E | E].
  - rewrite E. reflexivity.
  - rewrite andb_false_r.
    destruct (interval_eqb (pick_interval (span_of start end_)) I1d); reflexivity.
Qed.

Lemma NoDup_map_filter {A B} (f : A -> B) (g : A -> bool) (l : list A) :
  NoDup (map f l) -> NoDup (map f (filter g l)).
Proof.
  induction l as [|a l IH]; cbn; intros H; [constructor|].
  apply NoDup_cons_iff in H as [Ha Hl].
  destruct (g a); cbn; auto. constructor; auto.
  intros Hin. apply Ha. apply in_map_iff in Hin as (x & <- & Hx).
  apply filter_In in Hx as [Hx _]. apply in_map. exact Hx.
Qed.

(** The calls of one [fetch_history]: pairwise different requests, all
    among those of the strategies that apply. *)
Lemma fetch_history_requests ticker start end_ w :
  exists tr,
    w_trace (snd (fetch_history respond ticker start end_ w)) = w_trace w ++ tr
    /\ NoDup (map fst tr)
    /\ forall req,
         In req (map fst tr) ->
         In req (map st_request
                   (filter st_applies
                      (@fast_path price ticker start end_
                       :: windowed ticker start end_ (end_ + 1)))).
Proof.
  destruct (fetch_history_calls ticker start end_ w)
    as (tr & w' & out & pre & post & Hrun & Ht & Hall & Hmap & _).
  exists tr. rewrite Hrun. cbn [snd]. split; [exact Ht|].
  pose proof (strategies_requests_distinct (price := price)
                ticker start end_ (end_ + 1)) as Hnd.
  rewrite Hall in *. rewrite Hmap. split.
  - apply NoDup_map_filter. rewrite map_app in Hnd.
    apply NoDup_app_remove_r in Hnd. exact Hnd.
  - intros req Hin. rewrite filter_app, map_app. apply in_or_app. left.
    exact Hin.
Qed.

(** X9: [fetch_history] never makes up data: every row of the series it
    returns comes from a row of a table the provider returned during this
    very call, with the timestamp floored to the grid of the interval and
    a close that is one of the cells of that row. *)
Theorem fetch_history_rows_from_provider ticker start end_ w s w'
    (Hrun : fetch_history respond ticker start end_ w = (Ok s, w')) :
  exists tr,
    w_trace w' = w_trace w ++ tr
    /\ forall r,
         In r (s_rows s) ->
         exists req df row v,
           In (req, Ok (Some df)) tr
           /\ In row (df_rows df)
           /\ fst r = floor_to (granularity (pick_interval (span_of start end_)))
                        (fst row)
           /\ snd r = Some v
           /\ In (Some v) (snd row).
Proof.
  destruct (fetch_history_calls ticker start end_ w)
    as (tr & w0 & out & pre & post & Hrun' & Ht & Hall & Hmap & Hout).
  rewrite Hrun in Hrun'. injection Hrun' as <- <-.
  exists tr. split; [exact Ht|]. intros r Hr.
  destruct Hout as [(He & _) | (Hne & st & raw & pre' & Hpre & Happ & Hin & Hraw & Hs)].
  - apply Normalization.is_empty_rows in He. rewrite He in Hr. destruct Hr.
  - assert (Hst : In st (fast_path ticker start end_
                         :: windowed ticker start end_ (end_ + 1))).
    { rewrite Hall, Hpre. apply in_or_app. left. apply in_or_app. right.
      left. reflexivity. }
    assert (Hfaith : faithful (pick_interval (span_of start end_)) st).
    { destruct Hst as [<- | Hst]; [apply fast_path_faithful|].
      pose proof (windowed_faithful (price := price) ticker start end_ (end_ + 1))
        as Hw.
      rewrite Forall_forall in Hw. auto. }
    destruct Hfaith as (_ & _ & Hres).
    destruct (Hres (to_close_series (pick_interval (span_of start end_)) raw))
      as [keep Hkeep].
    rewrite Hs, Hkeep in Hr. apply Normalization.select_rows_incl in Hr.
    destruct raw as [df|]; [|destruct Hr].
    destruct (NormalizationMore.to_close_series_row_origin _ _ _ Hr)
      as (row & v & H1 & H2 & H3 & H4).
    exists (st_request st), df, row, v. auto.
Qed.

(** X10: one call of [fetch_history] makes at most four provider calls,
    no two with the same request, each for the given ticker and the one
    interval picked for the window; at most three unless the span is one
    day, and for daily bars at most two, none of them a trailing-period
    request. *)
Theorem fetch_history_call_budget ticker start end_ w :
  exists tr,
    w_trace (snd (fetch_history respond ticker start end_ w)) = w_trace w ++ tr
    /\ (List.length tr <= 4)%nat
    /\ NoDup (map fst tr)
    /\ Forall (fun c => request_ticker (fst c) = ticker
                        /\ request_interval (fst c)
                           = pick_interval (span_of start end_)) tr
    /\ (span_of start end_ <> 1 -> (List.length tr <= 3)%nat)
    /\ (pick_interval (span_of start end_) = I1d ->
        (List.length tr <= 2)%nat
        /\ Forall (fun c => is_period_request (fst c) = false) tr).
Proof.
  destruct (fetch_history_requests ticker start end_ w) as (tr & Ht & Hnd & Hin).
  exists tr. split; [exact Ht|].
  rewrite applicable_requests in Hin.
  assert (Hlen : forall l, (forall req, In req (map fst tr) -> In req l) ->
                           (List.length tr <= List.length l)%nat).
  { intros l Hl. rewrite <- (length_map fst tr).
    apply NoDup_incl_length; [exact Hnd | exact Hl]. }
  assert (Hfa : forall (Q : Request -> Prop),
             (forall req, In req (map fst tr) -> Q req) ->
             Forall (fun c => Q (fst c)) tr).
  { intros Q HQ. apply Forall_forall. intros c Hc. apply HQ.
    apply in_map. exact Hc. }
  split; [|split; [exact Hnd|split; [|split]]].
  - etransitivity; [apply (Hlen _ Hin)|].
    destruct (span_of start end_ =? 1),
      (interval_eqb (pick_interval (span_of start end_)) I1d); cbn; lia.
  - apply (Hfa (fun req => request_ticker req = ticker
                           /\ request_interval req
                              = pick_interval (span_of start end_))).
    intros req Hreq. apply Hin in Hreq.
    destruct (span_of start end_ =? 1),
      (interval_eqb (pick_interval (span_of start end_)) I1d); cbn in Hreq;
      repeat (destruct Hreq as [<- | Hreq]; [cbn; auto|]); contradiction.
  - intros Hspan. etransitivity; [apply (Hlen _ Hin)|].
    destruct (Z.eqb_spec (span_of start end_) 1); [contradiction|].
    destruct (interval_eqb (pick_interval (span_of start end_)) I1d); cbn; lia.
  - intros Hday. rewrite Hday in Hin. cbn [interval_eqb] in Hin.
    assert (Hspan : (span_of start end_ =? 1) = false).
    { destruct (Z.eqb_spec (span_of start end_) 1) as [E|]; [|reflexivity].
      rewrite E in Hday. discriminate Hday. }
    rewrite Hspan in Hin. split.
    + apply (Hlen _ Hin).
    + apply (Hfa (fun req => is_period_request req = false)).
      intros req Hreq. apply Hin in Hreq. cbn in Hreq.
      repeat (destruct Hreq as [<- | Hreq]; [reflexivity|]). contradiction.
Qed.

(** X11: when [fetch_history] returns an empty series it has tried every
    strategy that applies to the window, in order: the 5d pull if the span
    is one day, the start/end download, the [history] retry, and, unless
    daily bars were picked, the 7d or 30d pull. *)
Theorem fetch_history_empty_tried_all ticker start end_ w s w'
    (Hrun : fetch_history respond ticker start end_ w = (Ok s, w'))
    (He : is_empty s = true) :
  let interval := pick_interval (span_of start end_) in
  exists tr,
    w_trace w' = w_trace w ++ tr
    /\ map fst tr =
       (if span_of start end_ =? 1
        then [DownloadPeriod ticker "5d" interval] else [])
       ++ [DownloadRange ticker start (end_ + 1) interval;
           HistoryRange ticker start (end_ + 1) interval]
       ++ (if interval_eqb interval I1d then []
           else [DownloadPeriod ticker
                   (if span_of start end_ <=? 7 then "7d" else "30d") interval]).
Proof.
  cbv zeta.
  destruct (fetch_history_calls ticker start end_ w)
    as (tr & w0 & out & pre & post & Hrun' & Ht & Hall & Hmap & Hout).
  rewrite Hrun in Hrun'. injection Hrun' as <- <-.
  exists tr. split; [exact Ht|].
  destruct Hout as [(_ & _ & -> & _) | (Hne & _)]; [|congruence].
  rewrite app_nil_r in Hall. rewrite Hmap, <- Hall.
  apply applicable_requests.
Qed.

(** X12: in a window of more than one day, a result that was obtained by
    the trailing-period fallback, the last call made being a period
    request, holds only bars inside the window: every timestamp is at or
    after midnight of the start date and before midnight of the day after
    the end date. *)
Theorem fetch_history_fallback_in_window ticker start end_ w s w'
    tr0 t0 period i0 o
    (Hrun : fetch_history respond ticker start end_ w = (Ok s, w'))
    (Hne : is_empty s = false)
    (Hspan : span_of start end_ <> 1)
    (Hlast : w_trace w' = w_trace w ++ tr0 ++ [(DownloadPeriod t0 period i0, o)]) :
  forall t, In t (index_of s) ->
            Timestamp_of_date start <= t < Timestamp_of_date (end_ + 1).
Proof.
  destruct (fetch_history_calls ticker start end_ w)
    as (tr & w0 & out & pre & post & Hrun' & Ht & Hall & Hmap & Hout).
  rewrite Hrun in Hrun'. injection Hrun' as <- <-.
  rewrite Ht in Hlast. apply app_inv_head in Hlast. subst tr.
  destruct Hout as [(He & _) | (_ & st & raw & pre' & Hpre & Happ & _ & _ & Hs)];
    [congruence|].
  rewrite Hpre, filter_app, !map_app in Hmap. cbn [filter] in Hmap.
  rewrite Happ in Hmap. cbn [map] in Hmap.
  apply app_inj_tail in Hmap as [_ Hreq]. cbn [fst] in Hreq.
  assert (Hst : In st (fast_path ticker start end_
                       :: windowed ticker start end_ (end_ + 1))).
  { rewrite Hall, Hpre. apply in_or_app. left. apply in_or_app. right.
    left. reflexivity. }
  unfold fast_path, windowed in Hst. cbv zeta in Hst.
  destruct (Z.eqb_spec (span_of start end_) 1) as [|_]; [contradiction|].
  destruct Hst as [<- | [<- | [<- | [<- | []]]]]; cbn [st_request] in Hreq;
    try discriminate Hreq.
  - cbn [st_applies] in Happ. rewrite andb_false_r in Happ. discriminate.
  - cbn [st_restrict] in Hs. intros t Hin. rewrite Hs in Hin.
    unfold index_of, select in Hin. cbn [s_rows] in Hin.
    apply in_map_iff in Hin as (r & <- & Hr). apply filter_In in Hr as [_ Hr].
    apply andb_prop in Hr as [H1 H2].
    apply Z.leb_le in H1. apply Z.ltb_lt in H2. lia.
Qed.

End Lemmas.

Lemma fetch_history_rows_from_provider_witness :
  exists s w' tr,
    fetch_history sessions_provider "AAPL" TUE TUE start_world = (Ok s, w')
    /\ w_trace w' = w_trace (@start_world Z) ++ tr
    /\ forall r,
         In r (s_rows s) ->
         exists req df row v,
           In (req, Ok (Some df)) tr
           /\ In row (df_rows df)
           /\ fst r = floor_to (granularity (pick_interval (span_of TUE TUE)))
                        (fst row)
           /\ snd r = Some v
           /\ In (Some v) (snd row).
Proof.
  eexists. eexists.
  destruct (fetch_history_rows_from_provider sessions_provider "AAPL" TUE TUE
              start_world _ _ eq_refl) as (tr & Ht & Hrows).
  exists tr. split; [reflexivity|]. split; [exact Ht | exact Hrows].
Defined.

Lemma fetch_history_empty_tried_all_witness :
  exists w' tr,
    fetch_history failing_provider "AAPL" MON WED start_world
    = (Ok empty_series, w')
    /\ w_trace w' = w_trace (@start_world Z) ++ tr
    /\ map fst tr = [DownloadRange "AAPL" MON (WED + 1) I5m;
                     HistoryRange "AAPL" MON (WED + 1) I5m;
                     DownloadPeriod "AAPL" "7d" I5m].
Proof.
  eexists.
  destruct (fetch_history_empty_tried_all failing_provider "AAPL" MON WED
              start_world _ _ eq_refl eq_refl) as (tr & Ht & Hmap).
  exists tr. split; [reflexivity|]. split; [exact Ht | exact Hmap].
Defined.

Lemma fetch_history_fallback_in_window_witness :
  exists s w',
    fetch_history sessions_provider "AAPL" TUE (TUE + 2) start_world = (Ok s, w')
    /\ is_empty s = false
    /\ span_of TUE (TUE + 2) <> 1
    /\ forall t, In t (index_of s) ->
                 Timestamp_of_date TUE <= t < Timestamp_of_date (TUE + 2 + 1).
Proof.
  eexists. eexists. split; [vm_compute; reflexivity|].
  split; [reflexivity|].
  assert (Hspan : span_of TUE (TUE + 2) <> 1) by (vm_compute; discriminate).
  split; [exact Hspan|].
  apply (fetch_history_fallback_in_window sessions_provider "AAPL" TUE (TUE + 2)
           start_world _ _
           [(DownloadRange "AAPL" TUE (TUE + 2 + 1) I5m, Ok None);
            (HistoryRange "AAPL" TUE (TUE + 2 + 1) I5m, Ok None)]
           "AAPL" "7d" I5m (Ok (Some two_sessions))
           eq_refl eq_refl Hspan eq_refl).
Defined.

End FetcherMore.

(* ------------------------------------------------------------------ *)
(** ** Chart adapter, continued *)

Module AdapterMore.

Section Lemmas.
Context {price : Type}.
Implicit Types (s : Series price).

(** [make_figure] on a series with rows, its defensive re-normalization
    resolved. *)
Lemma make_figure_nonempty s ticker :
  is_empty s = false ->
  make_figure s ticker =
  Ok (mkFigure (ticker +++ " Price Performance")
        (Some (mkChart (index_of s) (map snd (s_rows s)) (ticker +++ " Close")
                 ("%{x|"
                  +++ (if existsb (fun t => negb (floor_to DAY_NS t =? t)) (index_of s)
                       then "%b %d, %Y %H:%M" else "%b %d, %Y")
                  +++ "}<br>Close: $%{y:.2f}<extra></extra>")
                 (if existsb (fun t => negb (floor_to DAY_NS t =? t)) (index_of s)
                  then "%b %d, %H:%M"
                  else if span_days s <=? 120 then "%b %d" else "%b %Y")
                 (60 <? span_days s)))).
Proof.
  intros Hne. unfold make_figure, span_days.
  assert (Hdates :
            (if forallb (fun t => floor_to DAY_NS t =? t) (index_of s)
             then map (floor_to DAY_NS) (index_of s) else index_of s)
            = index_of s).
  { destruct (forallb _ (index_of s)) eqn:Hd; [|reflexivity].
    apply Adapter.daily_like_fixed. exact Hd. }
  cbv zeta. rewrite Hdates.
  destruct (index_of s) as [|first rest] eqn:Hidx.
  - exfalso. unfold index_of in Hidx. apply map_eq_nil in Hidx.
    apply Normalization.is_empty_rows in Hidx. congruence.
  - rewrite (Adapter.last_default_irrelevant rest first first 0). cbn [hd].
    destruct (existsb _ (first :: rest)); reflexivity.
Qed.

Lemma intraday_exists (l : list Z) :
  existsb (fun t => negb (floor_to DAY_NS t =? t)) l = true
  <-> Exists (fun t => floor_to DAY_NS t <> t) l.
Proof.
  rewrite existsb_exists, Exists_exists.
  split; intros (t & Hin & Ht); exists t; (split; [exact Hin|]).
  - apply negb_true_iff, Z.eqb_neq in Ht. exact Ht.
  - apply negb_true_iff, Z.eqb_neq. exact Ht.
Qed.

End Lemmas.

(** X14: the formats [make_figure] chooses for a non-empty series: as
    soon as one timestamp has a time of day, the axis shows month, day,
    hour and minute and the hover adds the year; when every timestamp is
    at midnight the axis shows month and day for spans of at most 120
    days and month and year beyond, and the hover shows the date only. *)
Theorem make_figure_formats {price} (s : Series price) (ticker : string)
    (Hne : is_empty s = false) :
  exists fig ch,
    make_figure s ticker = Ok fig
    /\ fig_chart fig = Some ch
    /\ (Exists (fun t => floor_to DAY_NS t <> t) (index_of s) ->
        ch_tickformat ch = "%b %d, %H:%M"
        /\ ch_hovertemplate ch
           = "%{x|%b %d, %Y %H:%M}<br>Close: $%{y:.2f}<extra></extra>")
    /\ (Forall (fun t => floor_to DAY_NS t = t) (index_of s) ->
        ch_tickformat ch = (if span_days s <=? 120 then "%b %d" else "%b %Y")
        /\ ch_hovertemplate ch
           = "%{x|%b %d, %Y}<br>Close: $%{y:.2f}<extra></extra>").
Proof.
  rewrite (make_figure_nonempty s ticker Hne).
  eexists. eexists. split; [reflexivity|]. split; [reflexivity|].
  cbn [ch_tickformat ch_hovertemplate].
  destruct (existsb (fun t => negb (floor_to DAY_NS t =? t)) (index_of s)) eqn:Hex.
  - split; [intros _; split; reflexivity|].
    intros Hall. exfalso. apply intraday_exists in Hex.
    apply Exists_exists in Hex as (t & Hin & Ht).
    rewrite Forall_forall in Hall. exact (Ht (Hall t Hin)).
  - split; [|intros _; split; reflexivity].
    intros Hsome. apply intraday_exists in Hsome. congruence.
Qed.

Lemma make_figure_formats_witness :
  exists fig ch,
    make_figure (to_close_series I5m (Some two_sessions)) "AAPL" = Ok fig
    /\ fig_chart fig = Some ch
    /\ ch_tickformat ch = "%b %d, %H:%M".
Proof.
  destruct (make_figure_formats (to_close_series I5m (Some two_sessions)) "AAPL"
              eq_refl) as (fig & ch & Hfig & Hch & Hintra & _).
  exists fig, ch. split; [exact Hfig|]. split; [exact Hch|].
  apply Hintra. apply Exists_cons_hd. vm_compute. discriminate.
Defined.

(** X15: [make_figure] fails exactly on an empty series, with
    IndexError; on any other series it plots the data unchanged: the x
    values are the timestamps of the series (the defensive re-normalization
    never alters them), the y values its closes, one per timestamp, and the
    title and the trace name carry the ticker. *)
Theorem make_figure_keeps_data {price} (s : Series price) (ticker : string) :
  (is_empty s = true -> make_figure s ticker = Raise IndexError)
  /\ (is_empty s = false ->
      exists fig ch,
        make_figure s ticker = Ok fig
        /\ fig_chart fig = Some ch
        /\ ch_x ch = index_of s
        /\ ch_y ch = map snd (s_rows s)
        /\ List.length (ch_x ch) = List.length (ch_y ch)
        /\ fig_title fig = ticker +++ " Price Performance"
        /\ ch_name ch = ticker +++ " Close").
Proof.
  split.
  - intros He. apply Normalization.is_empty_rows in He.
    unfold make_figure, index_of. rewrite He. reflexivity.
  - intros Hne. rewrite (make_figure_nonempty s ticker Hne).
    eexists. eexists. split; [reflexivity|]. split; [reflexivity|].
    cbn [ch_x ch_y ch_name fig_title]. unfold index_of.
    rewrite !length_map. repeat split; reflexivity.
Qed.

End AdapterMore.

(* ------------------------------------------------------------------ *)
(** ** Orchestration entry point, continued *)

Module OrchestrationMore.

Section Claims.
Context {price P : Type}.
Variable respond : P -> Request -> Outcome price * P.
Implicit Types (w : World price P) (s : Series price).

(** [update_chart] touches the provider and stderr through
    [fetch_history] only. *)
Lemma update_chart_world today ticker range_key w :
  snd (update_chart respond today ticker range_key w) =
  match get_last_trading_day today with
  | Ok e0 =>
      match compute_window_endpoints range_key e0 with
      | Ok (start, end_) =>
          snd (fetch_history respond
                 (or_default (upper (strip (str_or ticker EmptyString)))
                    DEFAULT_TICKER) start end_ w)
      | Raise _ => w
      end
  | Raise _ => w
  end.
Proof.
  unfold update_chart, try_except, update_chart_try, bind, lift, ret.
  destruct (get_last_trading_day today) as [e0|x];
    [|destruct (exn_is_Exception x); reflexivity].
  destruct (compute_window_endpoints range_key e0) as [[start end_]|x];
    [|destruct (exn_is_Exception x); reflexivity].
  destruct (fetch_history respond _ start end_ w) as [[s|x] w1];
    [|destruct (exn_is_Exception x); reflexivity].
  destruct (len s =? 0); [reflexivity|].
  destruct (make_figure s _) as [fig|x];
    [|destruct (exn_is_Exception x); reflexivity].
  destruct range_key; reflexivity.
Qed.

(** X16: when data comes back, [update_chart] returns the figure of
    [make_figure], titled with the ticker, and the status message
    [Showing <ticker> – <KEYWORD> window (<n> rows)] with the keyword in
    upper case and n the number of rows fetched. *)
Theorem update_chart_success today ticker k w t e0 start end_ s w1
    (Ht : t = or_default (upper (strip (str_or ticker EmptyString))) DEFAULT_TICKER)
    (Hltd : get_last_trading_day today = Ok e0)
    (Hcwe : compute_window_endpoints (Some k) e0 = Ok (start, end_))
    (Hfetch : fetch_history respond t start end_ w = (Ok s, w1))
    (Hne : is_empty s = false) :
  exists fig,
    make_figure s t = Ok fig
    /\ fig_title fig = t +++ " Price Performance"
    /\ update_chart respond today ticker (Some k) w
       = (Ok (fig, "Showing " +++ t +++ " – " +++ upper k +++ " window ("
                   +++ str_of_Z (len s) +++ " rows)"), w1).
Proof.
  pose proof (AdapterMore.make_figure_nonempty s t Hne) as Hfig.
  eexists. split; [exact Hfig|]. split; [reflexivity|].
  unfold update_chart, try_except, update_chart_try. cbv zeta. rewrite <- Ht.
  unfold bind at 1, lift at 1. rewrite Hltd.
  unfold bind at 1, lift at 1. rewrite Hcwe.
  unfold bind at 1. rewrite Hfetch.
  assert (Hlen : (len s =? 0) = false).
  { destruct (Z.eqb_spec (len s) 0) as [E|]; [|reflexivity].
    apply Normalization.is_empty_len in E. congruence. }
  rewrite Hlen. unfold bind, lift, ret. rewrite Hfig. reflexivity.
Qed.

(** X17: with no range keyword at all, the window defaults to the last 90
    days, but once data comes back building the status message fails on
    the missing keyword: [update_chart] then returns the Error figure and
    the message of the AttributeError, not the chart. *)
Theorem update_chart_absent_keyword today ticker w t e0 start s w1
    (Ht : t = or_default (upper (strip (str_or ticker EmptyString))) DEFAULT_TICKER)
    (Hltd : get_last_trading_day today = Ok e0)
    (Hstart : date_sub_days e0 90 = Ok start)
    (Hfetch : fetch_history respond t start e0 w = (Ok s, w1))
    (Hne : is_empty s = false) :
  update_chart respond today ticker None w
  = (Ok (mkFigure "Error" None,
         "Error: AttributeError: 'NoneType' object has no attribute 'upper'"),
     w1).
Proof.
  pose proof (AdapterMore.make_figure_nonempty s t Hne) as Hfig.
  unfold update_chart, try_except, update_chart_try. cbv zeta. rewrite <- Ht.
  unfold bind at 1, lift at 1. rewrite Hltd.
  unfold bind at 1, lift at 1.
  change (compute_window_endpoints None e0)
    with (rbind (date_sub_days e0 90) (fun a => Ok (a, e0))).
  rewrite Hstart. cbn [rbind].
  unfold bind at 1. rewrite Hfetch.
  assert (Hlen : (len s =? 0) = false).
  { destruct (Z.eqb_spec (len s) 0) as [E|]; [|reflexivity].
    apply Normalization.is_empty_len in E. congruence. }
  rewrite Hlen. unfold bind, lift, ret. rewrite Hfig. reflexivity.
Qed.

(** X18: whatever the inputs, one [update_chart] makes at most four
    provider calls, all for the normalized ticker; and when today is a
    valid date every start/end request it sends covers a proper window
    that starts at a valid date and ends no later than the day after
    today. *)
Theorem update_chart_requests today ticker range_key w (Hd : valid_date today) :
  exists tr,
    w_trace (snd (update_chart respond today ticker range_key w))
    = w_trace w ++ tr
    /\ (List.length tr <= 4)%nat
    /\ Forall
         (fun c =>
            request_ticker (fst c)
            = or_default (upper (strip (str_or ticker EmptyString))) DEFAULT_TICKER
            /\ match fst c with
               | DownloadRange _ a b _ | HistoryRange _ a b _ =>
                   valid_date a /\ a < b /\ b <= today + 1
               | DownloadPeriod _ _ _ => True
               end) tr.
Proof.
  assert (Hnone : exists tr : list (Request * Outcome price),
             w_trace w = w_trace w ++ tr
             /\ (List.length tr <= 4)%nat
             /\ Forall
                  (fun c =>
                     request_ticker (fst c)
                     = or_default (upper (strip (str_or ticker EmptyString)))
                         DEFAULT_TICKER
                     /\ match fst c with
                        | DownloadRange _ a b _ | HistoryRange _ a b _ =>
                            valid_date a /\ a < b /\ b <= today + 1
                        | DownloadPeriod _ _ _ => True
                        end) tr).
  { exists []. rewrite app_nil_r. split; [reflexivity|].
    split; [cbn; lia | constructor]. }
  rewrite update_chart_world.
  destruct (get_last_trading_day today) as [e0|x] eqn:Hltd; [|exact Hnone].
  destruct (compute_window_endpoints range_key e0) as [[start end_]|x] eqn:Hcwe;
    [|exact Hnone].
  clear Hnone.
  - set (t := or_default (upper (strip (str_or ticker EmptyString))) DEFAULT_TICKER).
    destruct (FetcherMore.fetch_history_requests respond t start end_ w)
      as (tr & Ht & Hnd & Hin).
    exists tr. split; [exact Ht|].
    rewrite FetcherMore.applicable_requests in Hin.
    assert (Hwin : valid_date start /\ start < end_ + 1 /\ end_ + 1 <= today + 1).
    { rewrite (Planner.get_last_trading_day_value today Hd) in Hltd.
      pose proof (Planner.weekend_not_first today Hd) as Hw.
      assert (He0 : valid_date e0 /\ e0 <= today).
      { injection Hltd as <-. unfold valid_date, DATE_MIN in *. by_cases; lia. }
      destruct He0 as [He0 Hle].
      destruct (PlannerMore.compute_window_endpoints_inv _ _ _ _ He0 Hcwe)
        as (Hs & _ & Hrange & Hlen).
      split; [exact Hs|].
      destruct Hlen as [[_ Hl] | [_ Hl]]; [lia | cbn in Hl; lia]. }
    split.
    + rewrite <- (length_map fst tr).
      etransitivity; [apply (NoDup_incl_length Hnd Hin)|].
      destruct (span_of start end_ =? 1),
        (interval_eqb (pick_interval (span_of start end_)) I1d); cbn; lia.
    + apply Forall_forall. intros c Hc.
      specialize (Hin (fst c) (in_map fst _ _ Hc)).
      destruct (span_of start end_ =? 1),
        (interval_eqb (pick_interval (span_of start end_)) I1d); cbn in Hin;
        repeat (destruct Hin as [<- | Hin]; [cbn; auto|]); contradiction.
Qed.

End Claims.

Lemma update_chart_success_witness :
  exists fig w1,
    update_chart sessions_provider WED (Some " aapl ") (Some "1d") start_world
    = (Ok (fig, "Showing AAPL – 1D window (2 rows)"), w1)
    /\ fig_title fig = "AAPL Price Performance".
Proof.
  destruct (update_chart_success sessions_provider WED (Some " aapl ") "1d"
              start_world "AAPL" WED TUE WED
              (last_session_only (to_close_series I5m (Some two_sessions)))
              (mkWorld 1%nat
                 [(DownloadPeriod "AAPL" "5d" I5m, Ok (Some two_sessions))] [])
              eq_refl eq_refl eq_refl eq_refl eq_refl)
    as (fig & _ & Htitle & Hrun).
  exists fig. eexists. split; [exact Hrun | exact Htitle].
Defined.

Lemma update_chart_absent_keyword_witness :
  exists w1,
    update_chart live_provider WED None None start_world
    = (Ok (mkFigure "Error" None,
           "Error: AttributeError: 'NoneType' object has no attribute 'upper'"),
       w1).
Proof.
  eexists.
  apply (update_chart_absent_keyword live_provider WED None start_world
           "AAPL" WED (WED - 90)
           (to_close_series I1d (Some same_minute))
           (mkWorld 1%nat
              [(DownloadRange "AAPL" (WED - 90) (WED + 1) I1d, Ok (Some same_minute))]
              [])
           eq_refl eq_refl eq_refl eq_refl eq_refl).
Defined.

Lemma update_chart_requests_witness :
  valid_date WED
  /\ exists tr,
       w_trace (snd (update_chart failing_provider WED (Some "msft") (Some "1w")
                       start_world))
       = w_trace (@start_world Z) ++ tr
       /\ (List.length tr <= 4)%nat
       /\ Forall
            (fun c =>
               request_ticker (fst c)
               = or_default (upper (strip (str_or (Some "msft") EmptyString)))
                   DEFAULT_TICKER
               /\ match fst c with
                  | DownloadRange _ a b _ | HistoryRange _ a b _ =>
                      valid_date a /\ a < b /\ b <= WED + 1
                  | DownloadPeriod _ _ _ => True
                  end) tr.
Proof.
  assert (Hd : valid_date WED)
    by (unfold valid_date, DATE_MIN, DATE_MAX, WED; lia).
  split; [exact Hd|].
  exact (update_chart_requests failing_provider WED (Some "msft") (Some "1w")
           start_world Hd).
Defined.

End OrchestrationMore.
